(** * Binance funding-rate monitor

    A shallow embedding of the classification, aggregation, alert
    selection and report formatting code of the monitor
    ([config.py], [data_processor.py], [main.py], [notifier.py]),
    followed by the properties the specification states about it.

    Conventions of the embedding.
    - A finite Python [float] (or [int]) is the rational number it
      denotes, a value of [Q].  Comparisons, [abs] and negation of finite
      floats are exact, so they are the operations of [Q].  A float
      literal, product or quotient is the exact value rounded to the
      nearest binary64 number, ties to even ([round_binary64]); overflow
      to infinity is outside the model.
    - A [str] is a [string] of UTF-8 bytes; [==] on strings is
      [String.eqb].
    - A record-shaped [dict] literal (one whose keys are fixed in the
      source) is a [Record]; where the source passes [{}] for an absent
      record, the embedding passes [None].  A [dict] keyed by symbol that
      is only read by key is a [gmap string _].  A [dict] whose items are
      iterated ([combined_results], the [analysis] argument of the alert
      selector and of the report) is the list of its items in insertion
      order, the order in which Python iterates it.
    - A [set] is a [gset]; iterating over it enumerates [elements].
    - [datetime.now()] is an explicit argument. *)

From Stdlib Require Import QArith Qabs Qround Qpower Lqa Ascii.
From stdpp Require Import gmap strings list fin_maps sorting pretty.


(** ** Numbers *)

(** [x >= y] and [x > y] on finite floats. *)
Definition py_ge (x y : Q) : bool := Qle_bool y x.
Definition py_gt (x y : Q) : bool := negb (Qle_bool x y).

(** Rounding to the nearest integer, ties to even: the rounding that
    [format] applies to the digits it drops. *)
Definition round_half_even (q : Q) : Z :=
  let f := Qfloor q in
  match (q - inject_Z f ?= 1 # 2)%Q with
  | Lt => f
  | Gt => (f + 1)%Z
  | Eq => if Z.even f then f else (f + 1)%Z
  end.

(** The exponent of the leading binary digit of a positive rational:
    [2 ^ Qlog2 q <= q < 2 ^ (Qlog2 q + 1)]. *)
Definition Qlog2 (q : Q) : Z :=
  let k := (Z.log2 (Qnum q) - Z.log2 (Z.pos (Qden q)))%Z in
  if Qle_bool (2 ^ k) q then k else (k - 1)%Z.

(** Rounding to the nearest multiple of [2 ^ e], ties to even. *)
Definition round_to_ulp (e : Z) (q : Q) : Q :=
  (inject_Z (round_half_even (q / 2 ^ e)) * 2 ^ e)%Q.

(** The exponent of the unit in the last place of the binary64 numbers
    around a positive [q]: 53 significant bits, and not below the
    exponent of the subnormal numbers. *)
Definition ulp_exponent (q : Q) : Z := Z.max (Qlog2 q - 52) (-1074).

(** Rounding to the nearest binary64 number, ties to even. *)
Definition round_binary64 (q : Q) : Q :=
  match (q ?= 0)%Q with
  | Eq => 0%Q
  | Gt => round_to_ulp (ulp_exponent q) q
  | Lt => (- round_to_ulp (ulp_exponent (- q)) (- q))%Q
  end.

(** A float literal; [x * y] and [x / y] on floats. *)
Definition float (q : Q) : Q := round_binary64 q.
Definition float_mul (x y : Q) : Q := round_binary64 (x * y).
Definition float_div (x y : Q) : Q := round_binary64 (x / y).

(** ['0' * n] *)
Fixpoint zeros (n : nat) : string :=
  match n with
  | O => ""
  | S n' => "0" +:+ zeros n'
  end.

(** [s.rjust(width, '0')] *)
Definition rjust_zeros (width : nat) (s : string) : string :=
  zeros (width - String.length s) +:+ s.

(** [format(x, '.<prec>f')], and [format(x, '+.<prec>f')] when [plus] is
    set: sign, integer part, point, [prec] digits. *)
Definition format_f (plus : bool) (prec : nat) (x : Q) : string :=
  let scale := (10 ^ Z.of_nat prec)%Z in
  let digits := round_half_even (Qabs x * inject_Z scale)%Q in
  let sign := if py_gt 0 x then "-" else if plus then "+" else "" in
  sign +:+ pretty (Z.to_N (digits / scale))
       +:+ (if decide (prec = O) then ""
            else "." +:+ rjust_zeros prec (pretty (Z.to_N (digits mod scale)))).

(** ** Strings *)

(** [s.split(sep)[0]] for a one-character separator: the characters of
    [s] before the first [sep], all of [s] when there is none. *)
Fixpoint split_first (sep : ascii) (s : string) : string :=
  match s with
  | EmptyString => EmptyString
  | String c rest =>
      if Ascii.eqb c sep then EmptyString else String c (split_first sep rest)
  end.

(** [x in l] for a list of strings. *)
Definition str_in (x : string) (l : list string) : bool :=
  existsb (String.eqb x) l.

(** ** Dicts in insertion order *)

(** [d[k] = v]: the value of an existing key is replaced in place, a new
    key is added at the end. *)
Fixpoint dict_set {V} (d : list (string * V)) (k : string) (v : V) : list (string * V) :=
  match d with
  | [] => [(k, v)]
  | (k', v') :: d' =>
      if String.eqb k' k then (k, v) :: d' else (k', v') :: dict_set d' k v
  end.

(** [d.get(k)] *)
Fixpoint dict_get {V} (d : list (string * V)) (k : string) : option V :=
  match d with
  | [] => None
  | (k', v') :: d' => if String.eqb k' k then Some v' else dict_get d' k
  end.

(** ** config.py *)

Record Band := { band_min : Q; band_max : Q }.

(** An entry of [FUNDING_RATE_THRESHOLDS]: the keys ['normal'], ['hot'],
    ['overheated'], each with ['min'] and ['max']. *)
Record FundingThresholds := {
  normal : Band;
  hot : Band;
  overheated : Band
}.

(** An entry of [OI_THRESHOLDS], in millions of USD. *)
Record OIThresholds := { low : Q; high : Q }.

Module Config.

Definition SYMBOLS : list string :=
  [ "BTC/USDT:USDT"; "ETH/USDT:USDT"; "BNB/USDT:USDT"; "ADA/USDT:USDT";
    "SOL/USDT:USDT"; "DOGE/USDT:USDT"; "XRP/USDT:USDT"; "MATIC/USDT:USDT";
    "AVAX/USDT:USDT"; "DOT/USDT:USDT" ].

Definition FUNDING_RATE_THRESHOLDS : gmap string FundingThresholds :=
  list_to_map
    [ ("BTC",
       {| normal := {| band_min := float 0.0; band_max := float 0.0003 |};
          hot := {| band_min := float 0.0005; band_max := float 0.001 |};
          overheated := {| band_min := float 0.001; band_max := 999 |} |});
      ("ETH",
       {| normal := {| band_min := float 0.0; band_max := float 0.0005 |};
          hot := {| band_min := float 0.001; band_max := float 0.0015 |};
          overheated := {| band_min := float 0.002; band_max := 999 |} |});
      ("DEFAULT",
       {| normal := {| band_min := (- float 0.005); band_max := float 0.005 |};
          hot := {| band_min := float 0.01; band_max := float 0.015 |};
          overheated := {| band_min := float 0.02; band_max := 999 |} |}) ].

Definition OI_THRESHOLDS : gmap string OIThresholds :=
  list_to_map
    [ ("BTC", {| low := 1000; high := 5000 |});
      ("ETH", {| low := 500; high := 2000 |});
      ("DEFAULT", {| low := 50; high := 200 |}) ].

(** [d.get(k, d['DEFAULT'])].  The default is an argument of [get], so
    the subscript [d['DEFAULT']] is evaluated first and raises
    [KeyError] ([None] here) when the table has no such key. *)
Definition get_or_DEFAULT {V} (d : gmap string V) (k : string) : option V :=
  dflt ← d !! "DEFAULT";
  Some (default dflt (d !! k)).

Definition get_symbol_threshold (symbol : string) : option FundingThresholds :=
  let base_symbol := split_first "/" symbol in
  get_or_DEFAULT FUNDING_RATE_THRESHOLDS base_symbol.

Definition get_oi_threshold (symbol : string) : option OIThresholds :=
  let base_symbol := split_first "/" symbol in
  get_or_DEFAULT OI_THRESHOLDS base_symbol.

End Config.

(** ** Rows and records *)

(** Capture times are carried through unchanged; any type would do. *)
Definition datetime := Z.
Bind Scope Z_scope with datetime.

(** A row of the funding-rate frame built by [get_funding_rates]. *)
Record FundingRow := {
  fr_symbol : string;
  fr_base_currency : string;
  fr_funding_rate : Q;
  fr_funding_time : datetime;
  fr_timestamp : datetime;
  fr_annualized_rate : Q
}.

(** A row of the open-interest frame built by [get_open_interest]. *)
Record OIRow := {
  or_symbol : string;
  or_base_currency : string;
  or_open_interest : Q;
  or_open_interest_usd : Q;
  or_mark_price : Q;
  or_timestamp : datetime
}.

(** A row of the price frame built by [get_price_data]. *)
Record PriceRow := {
  pr_symbol : string;
  pr_base_currency : string;
  pr_price : Q;
  pr_change_24h : Q;
  pr_change_24h_percent : Q;
  pr_volume_24h : Q;
  pr_timestamp : datetime
}.

(** A value of the dict returned by [analyze_funding_rate]. *)
Record FundingAnalysis := {
  fa_base_currency : string;
  fa_funding_rate : Q;
  fa_funding_rate_percent : Q;
  fa_annualized_rate : Q;
  fa_annualized_rate_percent : Q;
  fa_status : string;
  fa_risk_level : Z;
  fa_signal : string;
  fa_timestamp : datetime
}.

(** A value of the dict returned by [analyze_open_interest]. *)
Record OIAnalysis := {
  oa_base_currency : string;
  oa_open_interest : Q;
  oa_open_interest_usd : Q;
  oa_open_interest_usd_millions : Q;
  oa_mark_price : Q;
  oa_oi_status : string;
  oa_timestamp : datetime
}.

(** A value of [price_dict] in [combine_analysis]. *)
Record PriceInfo := {
  pi_price : Q;
  pi_change_24h_percent : Q;
  pi_volume_24h : Q
}.

(** A value of the dict returned by [combine_analysis]. *)
Record CombinedRecord := {
  cr_symbol : string;
  cr_base_currency : string;
  cr_funding_rate_percent : Q;
  cr_funding_status : string;
  cr_funding_risk_level : Z;
  cr_oi_usd_millions : Q;
  cr_oi_status : string;
  cr_price : Q;
  cr_price_change_24h_percent : Q;
  cr_combined_signal : string;
  cr_analysis_time : datetime
}.

(** An element of the list returned by [_check_alerts]. *)
Record AlertEntry := {
  al_symbol : string;
  al_base_currency : string;
  al_funding_rate_percent : Q;
  al_status : string;
  al_signal : string;
  al_priority : string
}.

(** [d.get(key, dflt)] on a record that may be absent ([{}]). *)
Definition get_field {R A} (field : R -> A) (dflt : A) (d : option R) : A :=
  from_option field dflt d.

(** ** data_processor.py *)

Module DataProcessor.

Definition _determine_funding_status (funding_rate : Q) (thresholds : FundingThresholds) : string :=
  let abs_rate := Qabs funding_rate in
  if py_ge abs_rate (band_min (overheated thresholds)) then "overheated"
  else if py_ge abs_rate (band_min (hot thresholds)) then "hot"
  else "normal".

Definition _calculate_risk_level (funding_rate : Q) (thresholds : FundingThresholds) : Z :=
  let abs_rate := Qabs funding_rate in
  if py_ge abs_rate (band_min (overheated thresholds)) then 5%Z
  else if py_ge abs_rate (band_min (hot thresholds)) then 3%Z
  else 1%Z.

Definition _generate_signal (funding_rate : Q) (status : string) (risk_level : Z) : string :=
  if String.eqb status "overheated" then
    if py_gt funding_rate 0 then "🔴 多頭擁擠，小心回調"
    else "🟢 空頭擠壓，可能反彈"
  else if String.eqb status "hot" then
    if py_gt funding_rate 0 then "🟡 多頭偏熱，注意風險"
    else "🟡 空頭偏冷，關注機會"
  else "⚪ 資金費率正常".

Definition _generate_combined_signal
    (funding_data : option FundingAnalysis) (oi_data : option OIAnalysis)
    (price_data : option PriceInfo) : string :=
  let signals : list string := [] in
  let signals :=
    match funding_data with
    | Some _ =>
        let funding_status := get_field fa_status "normal" funding_data in
        let funding_rate := get_field fa_funding_rate 0%Q funding_data in
        if String.eqb funding_status "overheated" then
          if py_gt funding_rate 0 then signals ++ ["資金費率過熱(多頭擁擠)"]
          else signals ++ ["資金費率過冷(空頭擁擠)"]
        else signals
    | None => signals
    end in
  let signals :=
    match oi_data with
    | Some _ =>
        let oi_status := get_field oa_oi_status "low" oi_data in
        if String.eqb oi_status "high" then signals ++ ["未平倉合約偏高"]
        else signals
    | None => signals
    end in
  let signals :=
    match price_data with
    | Some _ =>
        let price_change := get_field pi_change_24h_percent 0%Q price_data in
        if py_gt (Qabs price_change) 5 then
          let direction := if py_gt price_change 0 then "上漲" else "下跌" in
          signals ++ ["價格大幅" +:+ direction +:+ "(" +:+ format_f false 2 price_change +:+ "%)"]
        else signals
    | None => signals
    end in
  match signals with
  | [] => "市場正常"
  | _ => String.concat " | " signals
  end.

(** The loop body of [combine_analysis]: the record stored under
    [symbol]. *)
Definition combined_record (now : datetime)
    (funding_analysis : gmap string FundingAnalysis)
    (oi_analysis : gmap string OIAnalysis)
    (price_dict : gmap string PriceInfo) (symbol : string) : CombinedRecord :=
  let funding_data := funding_analysis !! symbol in
  let oi_data := oi_analysis !! symbol in
  let price_info := price_dict !! symbol in
  {| cr_symbol := symbol;
     cr_base_currency := get_field fa_base_currency (split_first "/" symbol) funding_data;
     cr_funding_rate_percent := get_field fa_funding_rate_percent 0%Q funding_data;
     cr_funding_status := get_field fa_status "unknown" funding_data;
     cr_funding_risk_level := get_field fa_risk_level 0%Z funding_data;
     cr_oi_usd_millions := get_field oa_open_interest_usd_millions 0%Q oi_data;
     cr_oi_status := get_field oa_oi_status "unknown" oi_data;
     cr_price := get_field pi_price 0%Q price_info;
     cr_price_change_24h_percent := get_field pi_change_24h_percent 0%Q price_info;
     cr_combined_signal := _generate_combined_signal funding_data oi_data price_info;
     cr_analysis_time := now |}.

(** No step of the body can raise on rows and records of these types,
    so the [except] branch (which returns [{}]) is not reachable and is
    left out. *)
Definition combine_analysis (now : datetime)
    (funding_analysis : gmap string FundingAnalysis)
    (oi_analysis : gmap string OIAnalysis)
    (price_data : list PriceRow) : list (string * CombinedRecord) :=
  let price_dict : gmap string PriceInfo :=
    foldl (fun price_dict row =>
             <[pr_symbol row :=
                 {| pi_price := pr_price row;
                    pi_change_24h_percent := pr_change_24h_percent row;
                    pi_volume_24h := pr_volume_24h row |}]> price_dict)
          ∅ price_data in
  let all_symbols : gset string := dom funding_analysis ∪ dom oi_analysis in
  foldl (fun combined_results symbol =>
           dict_set combined_results symbol
             (combined_record now funding_analysis oi_analysis price_dict symbol))
        [] (elements all_symbols).

Definition _determine_oi_status (oi_usd : Q) (thresholds : OIThresholds) : string :=
  let oi_millions := float_div oi_usd 1000000 in
  if py_ge oi_millions (high thresholds) then "high"
  else if py_ge oi_millions (low thresholds) then "medium"
  else "low".

(** The body runs in the option monad: [None] is an exception, which
    the [except] branch turns into [{}]. *)
Definition analyze_funding_rate (funding_df : list FundingRow) : gmap string FundingAnalysis :=
  default ∅
    (foldl (fun acc row =>
              analysis_results ← acc;
              let symbol := fr_symbol row in
              let base_currency := fr_base_currency row in
              let funding_rate := fr_funding_rate row in
              let annualized_rate := fr_annualized_rate row in
              thresholds ← Config.get_symbol_threshold symbol;
              let status := _determine_funding_status funding_rate thresholds in
              let risk_level := _calculate_risk_level funding_rate thresholds in
              Some (<[symbol :=
                        {| fa_base_currency := base_currency;
                           fa_funding_rate := funding_rate;
                           fa_funding_rate_percent := float_mul funding_rate 100;
                           fa_annualized_rate := annualized_rate;
                           fa_annualized_rate_percent := float_mul annualized_rate 100;
                           fa_status := status;
                           fa_risk_level := risk_level;
                           fa_signal := _generate_signal funding_rate status risk_level;
                           fa_timestamp := fr_timestamp row |}]> analysis_results))
           (Some ∅) funding_df).

Definition analyze_open_interest (oi_df : list OIRow) : gmap string OIAnalysis :=
  default ∅
    (foldl (fun acc row =>
              analysis_results ← acc;
              let symbol := or_symbol row in
              let base_currency := or_base_currency row in
              let oi_usd := or_open_interest_usd row in
              oi_thresholds ← Config.get_oi_threshold symbol;
              let oi_status := _determine_oi_status oi_usd oi_thresholds in
              Some (<[symbol :=
                        {| oa_base_currency := base_currency;
                           oa_open_interest := or_open_interest row;
                           oa_open_interest_usd := oi_usd;
                           oa_open_interest_usd_millions := float_div oi_usd 1000000;
                           oa_mark_price := or_mark_price row;
                           oa_oi_status := oi_status;
                           oa_timestamp := or_timestamp row |}]> analysis_results))
           (Some ∅) oi_df).

End DataProcessor.

(** ** main.py *)

Module FundingMonitor.

(** The condition of the [if] in [_check_alerts]. *)
Definition alert_condition (funding_status oi_status : string) : bool :=
  str_in funding_status ["overheated"]
  || (String.eqb funding_status "overheated" && String.eqb oi_status "high").

(** Every subscript in the body names a field of the record, so the
    [except] branch (which returns [[]]) is not reachable and is left
    out. *)
Definition _check_alerts (analysis : list (string * CombinedRecord)) : list AlertEntry :=
  foldl (fun alerts '(symbol, data) =>
           let funding_status := cr_funding_status data in
           let oi_status := cr_oi_status data in
           if alert_condition funding_status oi_status then
             alerts ++ [ {| al_symbol := symbol;
                            al_base_currency := cr_base_currency data;
                            al_funding_rate_percent := cr_funding_rate_percent data;
                            al_status := funding_status;
                            al_signal := cr_combined_signal data;
                            al_priority := "high" |} ]
           else alerts)
        [] analysis.

End FundingMonitor.

(** ** notifier.py *)

Module Notifier.

Definition nl : string := String "010"%char "".

(** [{...}.get(status, '⚪')] for the icon table of the report. *)
Definition status_icon (status : string) : string :=
  if String.eqb status "overheated" then "🔥"
  else if String.eqb status "hot" then "🟡"
  else if String.eqb status "normal" then "🟢"
  else "⚪".

(** [sum(1 for x in xs if cond(x))] *)
Definition sum_1_if {A} (cond : A -> bool) (xs : list A) : nat :=
  foldl (fun total x => if cond x then (total + 1)%nat else total) O xs.

(** [sorted(xs, key=key, reverse=True)].  Python's sort is stable, also
    with [reverse=True]: elements with equal keys keep their order.  A
    stable sort has one possible result, which insertion from the right
    computes: each element goes in front of the first one whose key is
    not larger than its own. *)
Fixpoint insert_desc {A} (key : A -> Q) (x : A) (l : list A) : list A :=
  match l with
  | [] => [x]
  | y :: l' => if py_gt (key y) (key x) then y :: insert_desc key x l' else x :: l
  end.

Definition sorted_reverse {A} (key : A -> Q) (xs : list A) : list A :=
  foldr (insert_desc key) [] xs.

Definition _format_alert_message (timestamp : string) (alerts : list AlertEntry)
    (cycle_type : string) : string :=
  let message := "🚨 **Binance 資金費率警報** (" +:+ cycle_type +:+ ")" +:+ nl in
  let message := message +:+ "⏰ " +:+ timestamp +:+ nl +:+ nl in
  foldl (fun message alert =>
           let symbol := al_symbol alert in
           let base_currency := al_base_currency alert in
           let funding_rate := al_funding_rate_percent alert in
           let signal := al_signal alert in
           let message := message +:+ "🔴 **" +:+ base_currency +:+ "** (" +:+ symbol +:+ ")" +:+ nl in
           let message := message +:+ "   資金費率: " +:+ format_f true 4 funding_rate +:+ "%" +:+ nl in
           message +:+ "   " +:+ signal +:+ nl +:+ nl)
        message alerts.

(** One pass of the loop over [sorted_analysis[:3]]. *)
Definition report_line (item : string * CombinedRecord) : string :=
  let data := item.2 in
  let base_currency := cr_base_currency data in
  let funding_rate := cr_funding_rate_percent data in
  let status := cr_funding_status data in
  status_icon status +:+ " " +:+ base_currency +:+ ": "
    +:+ format_f true 4 funding_rate +:+ "%" +:+ nl.

Definition _format_report_message (timestamp : string)
    (analysis : list (string * CombinedRecord)) (cycle_type : string) : string :=
  let message := "📊 **Binance 資金費率報告** (" +:+ cycle_type +:+ ")" +:+ nl in
  let message := message +:+ "⏰ " +:+ timestamp +:+ nl +:+ nl in
  match analysis with
  | [] => message +:+ "無數據" +:+ nl
  | _ =>
    let total_symbols := length analysis in
    let overheated_count :=
      sum_1_if (fun data => String.eqb (cr_funding_status data) "overheated") analysis.*2 in
    let hot_count :=
      sum_1_if (fun data => String.eqb (cr_funding_status data) "hot") analysis.*2 in
    let message := message +:+ "📈 總計幣種: " +:+ pretty total_symbols +:+ nl in
    let message := message +:+ "🔥 過熱: " +:+ pretty overheated_count +:+ nl in
    let message := message +:+ "🟡 偏熱: " +:+ pretty hot_count +:+ nl +:+ nl in
    let sorted_analysis :=
      sorted_reverse (fun x => Qabs (cr_funding_rate_percent x.2)) analysis in
    let message := message +:+ "**資金費率TOP 3:**" +:+ nl in
    foldl (fun message item => message +:+ report_line item)
          message (take 3 sorted_analysis)
  end.

End Notifier.

(** ** notifier.py: delivery *)

(** Logging and HTTP requests are events appended to a trace.  The
    outcome of a request is chosen by the environment, which may look at
    everything that happened before: [None] when [requests.post] and
    [raise_for_status] return, [Some e] when one of them raises an
    exception that prints as [e]. *)

Module NotifierIO.

(** The notification settings of [Config], read from the environment
    with [''] as default. *)
Record Credentials := {
  TELEGRAM_TOKEN : string;
  TELEGRAM_CHAT_ID : string;
  DISCORD_WEBHOOK_URL : string
}.

Inductive LogLevel := INFO | WARNING | ERROR.

(** A call of [requests.post]: the Telegram call passes form [data], the
    Discord call a [json] body; both pass a timeout in seconds. *)
Inductive Request :=
  | TelegramPost (url chat_id text parse_mode : string) (timeout : nat)
  | DiscordPost (url content : string) (timeout : nat).

Inductive Event :=
  | Logged (level : LogLevel) (message : string)
  | Posted (request : Request).

Definition Network := list Event -> Request -> option string.

(** [bool(s)] for a string. *)
Definition truthy (s : string) : bool := negb (String.eqb s "").

(** The attributes that [__init__] sets. *)
Record Notifier := {
  telegram_enabled : bool;
  discord_enabled : bool
}.

Definition __init__ (cfg : Credentials) (trace : list Event) : Notifier * list Event :=
  let telegram_enabled := truthy (TELEGRAM_TOKEN cfg) && truthy (TELEGRAM_CHAT_ID cfg) in
  let discord_enabled := truthy (DISCORD_WEBHOOK_URL cfg) in
  let trace :=
    if telegram_enabled then trace ++ [Logged INFO "Telegram 通知已啟用"] else trace in
  let trace :=
    if discord_enabled then trace ++ [Logged INFO "Discord 通知已啟用"] else trace in
  let trace :=
    if negb (telegram_enabled || discord_enabled)
    then trace ++ [Logged WARNING "未配置任何通知方式"] else trace in
  ({| telegram_enabled := telegram_enabled; discord_enabled := discord_enabled |}, trace).

Definition _send_telegram_message (cfg : Credentials) (net : Network)
    (message : string) (trace : list Event) : list Event :=
  let url := "https://api.telegram.org/bot" +:+ TELEGRAM_TOKEN cfg +:+ "/sendMessage" in
  let request := TelegramPost url (TELEGRAM_CHAT_ID cfg) message "Markdown" 10 in
  match net trace request with
  | None => trace ++ [Posted request; Logged INFO "Telegram 消息發送成功"]
  | Some e => trace ++ [Posted request; Logged ERROR ("Telegram 消息發送失敗: " +:+ e)]
  end.

Definition _send_discord_message (cfg : Credentials) (net : Network)
    (message : string) (trace : list Event) : list Event :=
  let request := DiscordPost (DISCORD_WEBHOOK_URL cfg) message 10 in
  match net trace request with
  | None => trace ++ [Posted request; Logged INFO "Discord 消息發送成功"]
  | Some e => trace ++ [Posted request; Logged ERROR ("Discord 消息發送失敗: " +:+ e)]
  end.

(** The two senders catch every exception themselves and the formatter
    cannot raise, so the [except] branches of [send_alerts] and
    [send_report] are not reachable and are left out. *)
Definition send_alerts (cfg : Credentials) (net : Network) (self : Notifier)
    (timestamp : string) (alerts : list AlertEntry) (cycle_type : string)
    (trace : list Event) : list Event :=
  match alerts with
  | [] => trace
  | _ =>
      let message := Notifier._format_alert_message timestamp alerts cycle_type in
      let trace :=
        if telegram_enabled self then _send_telegram_message cfg net message trace
        else trace in
      let trace :=
        if discord_enabled self then _send_discord_message cfg net message trace
        else trace in
      trace ++ [Logged INFO ("已發送 " +:+ pretty (length alerts) +:+ " 個警報通知")]
  end.

Definition send_report (cfg : Credentials) (net : Network) (self : Notifier)
    (timestamp : string) (analysis : list (string * CombinedRecord))
    (cycle_type : string) (trace : list Event) : list Event :=
  let message := Notifier._format_report_message timestamp analysis cycle_type in
  let trace :=
    if telegram_enabled self then _send_telegram_message cfg net message trace
    else trace in
  let trace :=
    if discord_enabled self then _send_discord_message cfg net message trace
    else trace in
  trace ++ [Logged INFO ("已發送 " +:+ cycle_type +:+ " 定期報告")].

End NotifierIO.

(** ** main.py: the monitoring cycle *)

(** The cycle runs against an environment: the exchange client (its
    three methods return a frame and never raise), the clock, the file
    system and the network.  What the cycle does is collected in a
    world: the log lines of [main.py] and [notifier.py] and the requests
    (a trace as above), the files written, and the strings printed. *)

Module MonitorCycle.

Import NotifierIO.

(** The frame that a [to_csv] call writes. *)
Inductive Frame :=
  | FundingFrame (rows : list FundingRow)
  | OIFrame (rows : list OIRow)
  | PriceFrame (rows : list PriceRow)
  | AnalysisFrame (items : list (string * CombinedRecord)).

Record World := {
  trace : list Event;
  files : list (string * Frame);
  stdout : list string
}.

(** The readings of [datetime.now()] in one cycle, as they are used:
    the analysis time of [combine_analysis], the stamp in the file names
    of [_save_data], the time in the alert message and the time in the
    printed report. *)
Record Clock := {
  analysis_time : datetime;
  save_stamp : string;
  alert_stamp : string;
  report_stamp : string
}.

Record Env := {
  credentials : Credentials;
  get_funding_rates : list string -> list FundingRow;
  get_open_interest : list string -> list OIRow;
  get_price_data : list string -> list PriceRow;
  clock : Clock;
  (** The outcome of writing a file, given the files written before:
      [None] when [to_csv] returns, [Some e] when it raises. *)
  fs : list (string * Frame) -> string -> option string;
  net : Network
}.

Definition DATA_DIR : string := "data".

Definition log_line (level : LogLevel) (message : string) (w : World) : World :=
  {| trace := trace w ++ [Logged level message]; files := files w; stdout := stdout w |}.

(** [print(s)] *)
Definition print (s : string) (w : World) : World :=
  {| trace := trace w; files := files w; stdout := stdout w ++ [s] |}.

(** [frame.to_csv(path, ...)]: the file is in the world when the call
    returns; [inr (w, e)] is the exception [e], raised in the world
    [w]. *)
Definition to_csv (env : Env) (path : string) (frame : Frame) (w : World)
    : World + World * string :=
  match fs env (files w) path with
  | None => inl {| trace := trace w; files := files w ++ [(path, frame)]; stdout := stdout w |}
  | Some e => inr (w, e)
  end.

(** Sequencing in a [try] block: an exception skips what follows. *)
Definition and_then (r : World + World * string) (k : World -> World + World * string)
    : World + World * string :=
  match r with
  | inl w => k w
  | inr raised => inr raised
  end.

(** The body of the [try] of [_save_data] up to the first exception. *)
Definition save_all (env : Env) (funding_df : list FundingRow) (oi_df : list OIRow)
    (price_df : list PriceRow) (analysis : list (string * CombinedRecord))
    (cycle_type : string) (w : World) : World + World * string :=
  let timestamp := save_stamp (clock env) in
  let name kind :=
    DATA_DIR +:+ "/" +:+ kind +:+ "_" +:+ cycle_type +:+ "_" +:+ timestamp +:+ ".csv" in
  and_then
    match funding_df with
    | [] => inl w
    | _ => to_csv env (name "funding_rate") (FundingFrame funding_df) w
    end
    (fun w =>
  and_then
    match oi_df with
    | [] => inl w
    | _ => to_csv env (name "open_interest") (OIFrame oi_df) w
    end
    (fun w =>
  and_then
    match price_df with
    | [] => inl w
    | _ => to_csv env (name "price_data") (PriceFrame price_df) w
    end
    (fun w =>
  match analysis with
  | [] => inl w
  | _ => to_csv env (name "analysis") (AnalysisFrame analysis) w
  end))).

Definition _save_data (env : Env) (funding_df : list FundingRow) (oi_df : list OIRow)
    (price_df : list PriceRow) (analysis : list (string * CombinedRecord))
    (cycle_type : string) (w : World) : World :=
  match save_all env funding_df oi_df price_df analysis cycle_type w with
  | inl w => log_line INFO ("數據已保存到 " +:+ DATA_DIR +:+ " 目錄") w
  | inr (w, e) => log_line ERROR ("保存數據時發生錯誤: " +:+ e) w
  end.

(** ['=' * n] *)
Fixpoint equals_signs (n : nat) : string :=
  match n with
  | O => ""
  | S n' => "=" +:+ equals_signs n'
  end.

(** The formatting cannot raise, so the [except] branch is left out. *)
Definition _generate_report (env : Env) (analysis : list (string * CombinedRecord))
    (cycle_type : string) (w : World) : World :=
  match analysis with
  | [] => w
  | _ =>
    let w := print (Notifier.nl +:+ equals_signs 60) w in
    let w := print ("📊 Binance 資金費率監控報告 (" +:+ cycle_type +:+ ")") w in
    let w := print ("⏰ 時間: " +:+ report_stamp (clock env)) w in
    let w := print (equals_signs 60) w in
    let w :=
      foldl (fun w '(symbol, data) =>
               let base_currency := cr_base_currency data in
               let funding_rate_percent := cr_funding_rate_percent data in
               let funding_status := cr_funding_status data in
               let oi_usd_millions := cr_oi_usd_millions data in
               let price_change_24h := cr_price_change_24h_percent data in
               let combined_signal := cr_combined_signal data in
               let status_icon := Notifier.status_icon funding_status in
               let w := print (Notifier.nl +:+ status_icon +:+ " " +:+ base_currency) w in
               let w := print ("   資金費率: " +:+ format_f true 4 funding_rate_percent +:+ "%") w in
               let w := print ("   未平倉合約: $" +:+ format_f false 1 oi_usd_millions +:+ "M") w in
               let w := print ("   24h價格變化: " +:+ format_f true 2 price_change_24h +:+ "%") w in
               print ("   綜合信號: " +:+ combined_signal) w)
            w analysis in
    print (Notifier.nl +:+ equals_signs 60) w
  end.

(** The notifier [self.notifier] is an argument.  Nothing that the body
    calls can raise, so the [except] branch, which logs and raises
    again, is not reachable and is left out. *)
Definition run_monitoring_cycle (env : Env) (notifier : Notifier)
    (cycle_type : string) (w : World) : World :=
  let w := log_line INFO ("開始執行 " +:+ cycle_type +:+ " 監控周期") w in
  let w := log_line INFO "獲取資金費率數據..." w in
  let funding_df := get_funding_rates env Config.SYMBOLS in
  match funding_df with
  | [] => log_line WARNING "未獲取到資金費率數據" w
  | _ =>
    let w := log_line INFO "獲取未平倉合約數據..." w in
    let oi_df := get_open_interest env Config.SYMBOLS in
    let w := log_line INFO "獲取價格數據..." w in
    let price_df := get_price_data env Config.SYMBOLS in
    let w := log_line INFO "分析數據..." w in
    let funding_analysis := DataProcessor.analyze_funding_rate funding_df in
    let oi_analysis := DataProcessor.analyze_open_interest oi_df in
    let combined_analysis :=
      DataProcessor.combine_analysis (analysis_time (clock env))
        funding_analysis oi_analysis price_df in
    let w := _save_data env funding_df oi_df price_df combined_analysis cycle_type w in
    let alerts := FundingMonitor._check_alerts combined_analysis in
    let w :=
      match alerts with
      | [] => w
      | _ =>
          {| trace := send_alerts (credentials env) (net env) notifier
                        (alert_stamp (clock env)) alerts cycle_type (trace w);
             files := files w;
             stdout := stdout w |}
      end in
    let w := _generate_report env combined_analysis cycle_type w in
    log_line INFO (cycle_type +:+ " 監控周期完成") w
  end.

End MonitorCycle.

(** * Properties *)

Import Config DataProcessor FundingMonitor Notifier.

(** ** Tactics *)

(** Turns the hypotheses on the result of a comparison into order
    statements. *)
Ltac compare_hyps :=
  repeat match goal with
    | H : (_ ?= _)%Q = Eq |- _ => apply Qeq_alt in H
    | H : (_ ?= _)%Q = Lt |- _ => apply Qlt_alt in H
    | H : (_ ?= _)%Q = Gt |- _ => apply Qgt_alt in H
    end.

(** ** Definitions used in the statements *)

(** The ordinal rank of an open-interest status: low < medium < high. *)
Definition oi_rank (status : string) : nat :=
  if String.eqb status "high" then 2
  else if String.eqb status "medium" then 1
  else 0.

(** Two threshold tables that differ at most in their [max] fields. *)
Definition same_mins (t t' : FundingThresholds) : Prop :=
  band_min (normal t) = band_min (normal t')
  ∧ band_min (hot t) = band_min (hot t')
  ∧ band_min (overheated t) = band_min (overheated t').

(** A table whose overheated band starts below its hot band. *)
Definition misordered_thresholds : FundingThresholds :=
  {| normal := {| band_min := float 0.0; band_max := float 0.0003 |};
     hot := {| band_min := float 0.01; band_max := float 0.015 |};
     overheated := {| band_min := float 0.001; band_max := 999 |} |}.

(** A table whose hot band starts at zero. *)
Definition zero_hot_thresholds : FundingThresholds :=
  {| normal := {| band_min := float 0.0; band_max := float 0.0 |};
     hot := {| band_min := float 0.0; band_max := float 0.001 |};
     overheated := {| band_min := float 0.001; band_max := 999 |} |}.

(** The BTC entry of the funding table, for examples. *)
Definition btc_thresholds : FundingThresholds :=
  {| normal := {| band_min := float 0.0; band_max := float 0.0003 |};
     hot := {| band_min := float 0.0005; band_max := float 0.001 |};
     overheated := {| band_min := float 0.001; band_max := 999 |} |}.

(** The BTC entry with every band narrowed to its [min]. *)
Definition btc_thresholds_narrow : FundingThresholds :=
  {| normal := {| band_min := float 0.0; band_max := float 0.0 |};
     hot := {| band_min := float 0.0005; band_max := float 0.0005 |};
     overheated := {| band_min := float 0.001; band_max := float 0.001 |} |}.

(** A funding table whose hot and overheated bands start above zero,
    and an open-interest table whose bands do. *)
Definition positive_mins (t : FundingThresholds) : Prop :=
  (0 < band_min (hot t))%Q ∧ (0 < band_min (overheated t))%Q.

Definition positive_bands (t : OIThresholds) : Prop :=
  (0 < low t)%Q ∧ (0 < high t)%Q.


(** Sample records: an overheated BTC funding analysis, a high ETH
    open-interest analysis, and a DOGE price row. *)
Definition btc_funding : FundingAnalysis :=
  {| fa_base_currency := "BTC";
     fa_funding_rate := float 0.0012;
     fa_funding_rate_percent := float 0.12;
     fa_annualized_rate := float 1.314;
     fa_annualized_rate_percent := float 131.4;
     fa_status := "overheated";
     fa_risk_level := 5;
     fa_signal := "🔴 多頭擁擠，小心回調";
     fa_timestamp := 0 |}.

Definition eth_open_interest : OIAnalysis :=
  {| oa_base_currency := "ETH";
     oa_open_interest := 1000000;
     oa_open_interest_usd := 2500000000;
     oa_open_interest_usd_millions := 2500;
     oa_mark_price := 2500;
     oa_oi_status := "high";
     oa_timestamp := 0 |}.


(** The alert that [_check_alerts] builds from an item. *)
Definition alert_of (item : string * CombinedRecord) : AlertEntry :=
  {| al_symbol := item.1;
     al_base_currency := cr_base_currency item.2;
     al_funding_rate_percent := cr_funding_rate_percent item.2;
     al_status := cr_funding_status item.2;
     al_signal := cr_combined_signal item.2;
     al_priority := "high" |}.

(** The ranking key of the report, and the order it induces: [x] ranks
    at least as high as [y]. *)
Definition abs_rate (item : string * CombinedRecord) : Q :=
  Qabs (cr_funding_rate_percent item.2).


(** An item whose funding status is [status]. *)
Definition has_status (status : string) (item : string * CombinedRecord) : Prop :=
  cr_funding_status item.2 = status.

#[global] Instance has_status_dec status item : Decision (has_status status item).
Proof. unfold has_status. apply _. Defined.

(** A combined record with the given symbol, funding rate percent and
    funding status, for examples. *)
Definition sample_record (symbol : string) (rate_percent : Q) (status : string)
    : string * CombinedRecord :=
  (symbol,
   {| cr_symbol := symbol;
      cr_base_currency := split_first "/" symbol;
      cr_funding_rate_percent := rate_percent;
      cr_funding_status := status;
      cr_funding_risk_level := 1;
      cr_oi_usd_millions := 100;
      cr_oi_status := "medium";
      cr_price := 1;
      cr_price_change_24h_percent := 0;
      cr_combined_signal := "市場正常";
      cr_analysis_time := 0 |}).

(** A batch of five symbols, one of them overheated. *)
Definition sample_batch : list (string * CombinedRecord) :=
  [ sample_record "BTC/USDT:USDT" (float 0.01) "normal";
    sample_record "ETH/USDT:USDT" (- float 0.25) "overheated";
    sample_record "BNB/USDT:USDT" (float 0.06) "hot";
    sample_record "ADA/USDT:USDT" (- float 0.06) "hot";
    sample_record "SOL/USDT:USDT" (float 0.001) "normal" ].

(** [row] is the last element of [rows] whose symbol is [symbol]. *)
Definition last_with {A} (key : A → string) (symbol : string) (rows : list A) (row : A) : Prop :=
  ∃ before after,
    rows = before ++ row :: after
    ∧ key row = symbol
    ∧ ∀ r, r ∈ after → key r ≠ symbol.

(** Sample frames: two funding rows for BTC (the later one overheated)
    and one for ETH; one open-interest row for ETH. *)
Definition sample_funding_df : list FundingRow :=
  [ {| fr_symbol := "BTC/USDT:USDT";
       fr_base_currency := "BTC";
       fr_funding_rate := float 0.0001;
       fr_funding_time := 0;
       fr_timestamp := 1;
       fr_annualized_rate := float_mul (float_mul (float 0.0001) 365) 3 |};
    {| fr_symbol := "ETH/USDT:USDT";
       fr_base_currency := "ETH";
       fr_funding_rate := - float 0.0012;
       fr_funding_time := 0;
       fr_timestamp := 1;
       fr_annualized_rate := float_mul (float_mul (- float 0.0012) 365) 3 |};
    {| fr_symbol := "BTC/USDT:USDT";
       fr_base_currency := "BTC";
       fr_funding_rate := float 0.0012;
       fr_funding_time := 0;
       fr_timestamp := 2;
       fr_annualized_rate := float_mul (float_mul (float 0.0012) 365) 3 |} ].

Definition sample_oi_df : list OIRow :=
  [ {| or_symbol := "ETH/USDT:USDT";
       or_base_currency := "ETH";
       or_open_interest := 600000;
       or_open_interest_usd := 1500000000;
       or_mark_price := 2500;
       or_timestamp := 1 |} ].

(** Two price rows for BTC, the later one with the later price. *)
Definition sample_price_df : list PriceRow :=
  [ {| pr_symbol := "BTC/USDT:USDT";
       pr_base_currency := "BTC";
       pr_price := 64000;
       pr_change_24h := 100;
       pr_change_24h_percent := float 0.2;
       pr_volume_24h := 1000;
       pr_timestamp := 1 |};
    {| pr_symbol := "BTC/USDT:USDT";
       pr_base_currency := "BTC";
       pr_price := 65000;
       pr_change_24h := 4000;
       pr_change_24h_percent := float 6.5;
       pr_volume_24h := 1200;
       pr_timestamp := 2 |} ].

(** Equality of rationals is decidable. *)
#[global] Instance Qeq_decision (x y : Q) : Decision (x == y)%Q := Qeq_dec x y.

Import NotifierIO.

(** The requests of a trace, in order. *)
Definition requests_of (trace : list Event) : list Request :=
  omap (fun e => match e with Posted r => Some r | Logged _ _ => None end) trace.

(** The requests that carry [message] to the channels that are
    enabled: Telegram first, then Discord. *)
Definition deliveries (cfg : Credentials) (self : NotifierIO.Notifier) (message : string)
    : list Request :=
  (if telegram_enabled self
   then [TelegramPost ("https://api.telegram.org/bot" +:+ TELEGRAM_TOKEN cfg +:+ "/sendMessage")
                      (TELEGRAM_CHAT_ID cfg) message "Markdown" 10]
   else [])
  ++ (if discord_enabled self
      then [DiscordPost (DISCORD_WEBHOOK_URL cfg) message 10]
      else []).

(** Environments in which every request fails, and in which none does. *)
Definition net_down : Network := fun _ _ => Some "ConnectionError".
Definition net_up : Network := fun _ _ => None.

(** Credentials with both channels configured. *)
Definition sample_credentials : Credentials :=
  {| TELEGRAM_TOKEN := "123:abc";
     TELEGRAM_CHAT_ID := "42";
     DISCORD_WEBHOOK_URL := "https://discord.example/hook" |}.


(** ** Comparisons *)

Lemma py_ge_true x y : py_ge x y = true ↔ (y <= x)%Q.
Proof. unfold py_ge. apply Qle_bool_iff. Qed.

Lemma py_ge_false x y : py_ge x y = false ↔ (x < y)%Q.
Proof.
  rewrite <- not_true_iff_false, py_ge_true. split.
  - apply Qnot_le_lt.
  - apply Qlt_not_le.
Qed.

Lemma py_gt_true x y : py_gt x y = true ↔ (y < x)%Q.
Proof.
  unfold py_gt. rewrite negb_true_iff, <- not_true_iff_false, Qle_bool_iff. split.
  - apply Qnot_le_lt.
  - apply Qlt_not_le.
Qed.

Lemma py_gt_false x y : py_gt x y = false ↔ (x <= y)%Q.
Proof. unfold py_gt. rewrite negb_false_iff. apply Qle_bool_iff. Qed.

(** ** Rounding *)

(** [round_half_even] is monotone and leaves integers alone. *)
Lemma round_half_even_floor q : (Qfloor q <= round_half_even q <= Qfloor q + 1)%Z.
Proof.
  unfold round_half_even. destruct (_ ?= _)%Q; [destruct (Z.even _)| |]; lia.
Qed.

Lemma round_half_even_mono x y : (x <= y)%Q → (round_half_even x <= round_half_even y)%Z.
Proof.
  intros Hxy. pose proof (Qfloor_resp_le _ _ Hxy) as Hf.
  destruct (Z.eq_dec (Qfloor x) (Qfloor y)) as [Heq|Hne].
  - unfold round_half_even. rewrite <- Heq.
    destruct (x - inject_Z (Qfloor x) ?= 1 # 2)%Q eqn:Hx;
      destruct (y - inject_Z (Qfloor x) ?= 1 # 2)%Q eqn:Hy;
      try (destruct (Z.even _)); try lia.
    all: exfalso; generalize dependent (inject_Z (Qfloor x)); intros fx Hx Hy.
    all: compare_hyps; lra.
  - pose proof (round_half_even_floor x). pose proof (round_half_even_floor y). lia.
Qed.

Lemma round_half_even_Z q n : (q == inject_Z n)%Q → round_half_even q = n.
Proof.
  intros Hq. unfold round_half_even.
  assert (Hf : Qfloor q = n) by (rewrite Hq; apply Qfloor_Z).
  rewrite Hf.
  assert (Hlt : (q - inject_Z n ?= 1 # 2)%Q = Lt).
  { apply Qlt_alt. rewrite Hq. unfold Qminus. rewrite Qplus_opp_r. reflexivity. }
  by rewrite Hlt.
Qed.

Lemma two_power_pos e : (0 < 2 ^ e)%Q.
Proof. by apply Qpower_0_lt. Qed.

Lemma two_power_Z m : (0 <= m)%Z → (2 ^ m == inject_Z (2 ^ m))%Q.
Proof. intros Hm. by rewrite Zpower_Qpower. Qed.

(** [2 ^ Qlog2 q <= q < 2 ^ (Qlog2 q + 1)] for a positive [q]. *)
Lemma Qlog2_spec q : (0 < q)%Q → (2 ^ Qlog2 q <= q)%Q ∧ (q < 2 ^ (Qlog2 q + 1))%Q.
Proof.
  destruct q as [n d]. intros Hq.
  assert (Hn : (0 < n)%Z) by (unfold Qlt in Hq; cbn in Hq; lia).
  unfold Qlog2. cbn [Qnum Qden].
  pose proof (Z.log2_spec n Hn) as [Ha1 Ha2].
  pose proof (Z.log2_spec (Z.pos d) (Pos2Z.is_pos d)) as [Hb1 Hb2].
  pose proof (Z.log2_nonneg n) as Ha0.
  pose proof (Z.log2_nonneg (Z.pos d)) as Hb0.
  generalize dependent (Z.log2 n). generalize dependent (Z.log2 (Z.pos d)).
  intros b Hb1 Hb2 Hb0 a Ha1 Ha2 Ha0.
  rewrite <- Z.add_1_r in Ha2, Hb2.
  (* n / d < 2^(a+1) / 2^b  and 2^a / 2^(b+1) < n / d *)
  assert (Hup : (n # d < 2 ^ (a - b + 1))%Q).
  { replace (a - b + 1)%Z with ((a + 1) - b)%Z by lia.
    rewrite Qpower_minus by done. rewrite !two_power_Z by lia.
    apply Qlt_shift_div_l; [rewrite <- two_power_Z by lia; apply two_power_pos|].
    generalize dependent (2 ^ (a + 1))%Z. generalize dependent (2 ^ b)%Z.
    intros pb Hb1 pa Ha2.
    unfold Qlt, Qmult, inject_Z. cbn [Qnum Qden]. nia. }
  assert (Hlow : (2 ^ (a - b - 1) < n # d)%Q).
  { replace (a - b - 1)%Z with (a - (b + 1))%Z by lia.
    rewrite Qpower_minus by done. rewrite !two_power_Z by lia.
    apply Qlt_shift_div_r; [rewrite <- two_power_Z by lia; apply two_power_pos|].
    generalize dependent (2 ^ (b + 1))%Z. generalize dependent (2 ^ a)%Z.
    intros pa Ha1 pb Hb2.
    unfold Qlt, Qmult, inject_Z. cbn [Qnum Qden]. nia. }
  destruct (Qle_bool (2 ^ (a - b)) (n # d)) eqn:Hle.
  - apply Qle_bool_iff in Hle. by split.
  - split; [by apply Qlt_le_weak|].
    replace (a - b - 1 + 1)%Z with (a - b)%Z by lia.
    apply Qnot_le_lt. intros Hc. apply Qle_bool_iff in Hc. congruence.
Qed.

Lemma Qlog2_mono x y : (0 < x)%Q → (x <= y)%Q → (Qlog2 x <= Qlog2 y)%Z.
Proof.
  intros Hx Hxy.
  destruct (Qlog2_spec x Hx) as [Hlow _].
  destruct (Qlog2_spec y) as [_ Hup]; [by apply Qlt_le_trans with x|].
  assert (Hlt : (2 ^ Qlog2 x < 2 ^ (Qlog2 y + 1))%Q).
  { apply Qle_lt_trans with x; [done|]. by apply Qle_lt_trans with y. }
  apply Qpower_lt_compat_l_inv in Hlt; [lia|reflexivity].
Qed.

Lemma scale_mono e x y : (x <= y)%Q → (x / 2 ^ e <= y / 2 ^ e)%Q.
Proof.
  intros Hxy. unfold Qdiv. apply Qmult_le_compat_r; [done|].
  apply Qlt_le_weak, Qinv_lt_0_compat, two_power_pos.
Qed.

Lemma round_to_ulp_mono e x y :
  (x <= y)%Q → (round_to_ulp e x <= round_to_ulp e y)%Q.
Proof.
  intros Hxy. unfold round_to_ulp.
  apply Qmult_le_compat_r; [|apply Qlt_le_weak, two_power_pos].
  rewrite <- Zle_Qle. by apply round_half_even_mono, scale_mono.
Qed.

(** A power of two from the unit in the last place upwards is
    representable. *)
Lemma round_to_ulp_power e u : (e <= u)%Z → (round_to_ulp e (2 ^ u) == 2 ^ u)%Q.
Proof.
  intros Heu. unfold round_to_ulp.
  rewrite (round_half_even_Z _ (2 ^ (u - e))).
  - rewrite <- two_power_Z by lia. rewrite <- Qpower_plus by done.
    by replace (u - e + e)%Z with u by lia.
  - rewrite <- two_power_Z by lia. by rewrite Qpower_minus.
Qed.

Lemma round_to_ulp_nonneg e x : (0 <= x)%Q → (0 <= round_to_ulp e x)%Q.
Proof.
  intros Hx. unfold round_to_ulp.
  apply Qmult_le_0_compat; [|apply Qlt_le_weak, two_power_pos].
  change 0%Q with (inject_Z 0). rewrite <- Zle_Qle.
  rewrite <- (round_half_even_Z 0 0) by reflexivity.
  apply round_half_even_mono.
  apply Qle_shift_div_l; [apply two_power_pos|]. by rewrite Qmult_0_l.
Qed.

Lemma round_positive_mono x y :
  (0 < x)%Q → (x <= y)%Q →
  (round_to_ulp (ulp_exponent x) x <= round_to_ulp (ulp_exponent y) y)%Q.
Proof.
  intros Hx Hxy.
  assert (Hy : (0 < y)%Q) by (by apply Qlt_le_trans with x).
  pose proof (Qlog2_mono x y Hx Hxy) as Hk.
  destruct (Qlog2_spec x Hx) as [_ Hxup].
  destruct (Qlog2_spec y Hy) as [Hylow _].
  unfold ulp_exponent.
  destruct (Z.eq_dec (Z.max (Qlog2 x - 52) (-1074)) (Z.max (Qlog2 y - 52) (-1074)))
    as [Heq|Hne].
  - rewrite Heq. by apply round_to_ulp_mono.
  - (* the next power of two separates the two results *)
    set (ex := Z.max (Qlog2 x - 52) (-1074)) in *.
    set (ey := Z.max (Qlog2 y - 52) (-1074)) in *.
    set (u := Z.max (Qlog2 x + 1) ex).
    apply Qle_trans with (2 ^ u)%Q.
    + rewrite <- (round_to_ulp_power ex u) by lia.
      apply round_to_ulp_mono.
      apply Qle_trans with (2 ^ (Qlog2 x + 1))%Q; [by apply Qlt_le_weak|].
      apply Qpower_le_compat_l; [lia|discriminate].
    + apply Qle_trans with (2 ^ Qlog2 y)%Q.
      * apply Qpower_le_compat_l; [lia|discriminate].
      * rewrite <- (round_to_ulp_power ey (Qlog2 y)) by lia.
        by apply round_to_ulp_mono.
Qed.

(** Rounding to binary64 is monotone. *)
Lemma round_binary64_mono x y :
  (x <= y)%Q → (round_binary64 x <= round_binary64 y)%Q.
Proof.
  intros Hxy. unfold round_binary64.
  destruct (x ?= 0)%Q eqn:Hx; destruct (y ?= 0)%Q eqn:Hy; compare_hyps; try lra.
  - apply round_to_ulp_nonneg. lra.
  - pose proof (round_to_ulp_nonneg (ulp_exponent (- x)) (- x)). lra.
  - pose proof (round_positive_mono (- y) (- x)). lra.
  - pose proof (round_to_ulp_nonneg (ulp_exponent (- x)) (- x)).
    pose proof (round_to_ulp_nonneg (ulp_exponent y) y). lra.
  - by apply round_positive_mono.
Qed.

Lemma round_binary64_zero : (round_binary64 0 == 0)%Q.
Proof. reflexivity. Qed.

(** A binary64 number, [m * 2 ^ e] with a significand below [2 ^ 53]
    and an exponent from -1074, is its own rounding. *)
Lemma round_binary64_representable (m e : Z) :
  (0 < m < 2 ^ 53)%Z → (-1074 <= e)%Z →
  (round_binary64 (inject_Z m * 2 ^ e) == inject_Z m * 2 ^ e)%Q.
Proof.
  intros [Hm0 Hm53] He.
  set (q := (inject_Z m * 2 ^ e)%Q).
  assert (Hq : (0 < q)%Q).
  { apply Qmult_lt_0_compat; [|apply two_power_pos].
    change 0%Q with (inject_Z 0). by rewrite <- Zlt_Qlt. }
  unfold round_binary64.
  assert (Hcmp : (q ?= 0)%Q = Gt) by (by apply Qgt_alt).
  rewrite Hcmp.
  (* the unit in the last place is at most 2^e *)
  assert (Hulp : (ulp_exponent q <= e)%Z).
  { unfold ulp_exponent.
    destruct (Qlog2_spec q Hq) as [Hlow _].
    assert (Hlt : (2 ^ Qlog2 q < 2 ^ (53 + e))%Q).
    { apply Qle_lt_trans with q; [done|].
      rewrite Qpower_plus by done. unfold q.
      apply Qmult_lt_compat_r; [apply two_power_pos|].
      rewrite two_power_Z by lia. by rewrite <- Zlt_Qlt. }
    apply Qpower_lt_compat_l_inv in Hlt; [lia|reflexivity]. }
  unfold round_to_ulp.
  rewrite (round_half_even_Z _ (m * 2 ^ (e - ulp_exponent q))).
  - rewrite inject_Z_mult, <- two_power_Z by lia.
    rewrite <- Qmult_assoc, <- Qpower_plus by done.
    by replace (e - ulp_exponent q + ulp_exponent q)%Z with e by lia.
  - rewrite inject_Z_mult, <- two_power_Z by lia.
    rewrite Qpower_minus by done. unfold q, Qdiv. by rewrite Qmult_assoc.
Qed.

(** The double nearest to one tenth. *)
Example round_binary64_tenth :
  (round_binary64 0.1 == 3602879701896397 # 36028797018963968)%Q.
Proof. reflexivity. Qed.

(** ** The funding classifier *)

(** The two functions test the same conditions, so status and risk level
    go together. *)
Lemma funding_status_risk_cases r t :
  (_determine_funding_status r t = "overheated" ∧ _calculate_risk_level r t = 5%Z
   ∧ (band_min (overheated t) <= Qabs r)%Q)
  ∨ (_determine_funding_status r t = "hot" ∧ _calculate_risk_level r t = 3%Z
     ∧ (Qabs r < band_min (overheated t))%Q ∧ (band_min (hot t) <= Qabs r)%Q)
  ∨ (_determine_funding_status r t = "normal" ∧ _calculate_risk_level r t = 1%Z
     ∧ (Qabs r < band_min (overheated t))%Q ∧ (Qabs r < band_min (hot t))%Q).
Proof.
  unfold _determine_funding_status, _calculate_risk_level.
  destruct (py_ge (Qabs r) (band_min (overheated t))) eqn:Ho.
  - left. by rewrite py_ge_true in Ho.
  - rewrite py_ge_false in Ho.
    destruct (py_ge (Qabs r) (band_min (hot t))) eqn:Hh.
    + right; left. by rewrite py_ge_true in Hh.
    + right; right. by rewrite py_ge_false in Hh.
Qed.

Lemma funding_status_opp r t :
  _determine_funding_status (- r) t = _determine_funding_status r t
  ∧ _calculate_risk_level (- r) t = _calculate_risk_level r t.
Proof.
  unfold _determine_funding_status, _calculate_risk_level.
  assert (Hge : ∀ m, py_ge (Qabs (- r)) m = py_ge (Qabs r) m).
  { intros m. apply eq_true_iff_eq. rewrite !py_ge_true, Qabs_opp. done. }
  by rewrite !Hge.
Qed.

(** C1: a rate whose absolute value reaches [overheated.min] is
    classified ['overheated'] with risk level 5, whatever its sign: the
    same holds for the rate of opposite sign. *)
Theorem funding_overheated_from_min (r : Q) (t : FundingThresholds) :
  (band_min (overheated t) <= Qabs r)%Q →
  (_determine_funding_status r t = "overheated" ∧ _calculate_risk_level r t = 5%Z)
  ∧ (_determine_funding_status (- r) t = "overheated"
     ∧ _calculate_risk_level (- r) t = 5%Z).
Proof.
  intros Hr.
  assert (H : _determine_funding_status r t = "overheated"
              ∧ _calculate_risk_level r t = 5%Z).
  { destruct (funding_status_risk_cases r t) as [(?&?&?)|[(?&?&Hlt&?)|(?&?&Hlt&?)]];
      [done| |]; destruct (Qlt_not_le _ _ Hlt Hr). }
  split; [done|].
  destruct (funding_status_opp r t) as [-> ->]. done.
Qed.

Lemma funding_overheated_from_min_witness :
  (_determine_funding_status (float 0.0012) btc_thresholds = "overheated"
   ∧ _calculate_risk_level (float 0.0012) btc_thresholds = 5%Z)
  ∧ (_determine_funding_status (- float 0.0012) btc_thresholds = "overheated"
     ∧ _calculate_risk_level (- float 0.0012) btc_thresholds = 5%Z).
Proof. apply funding_overheated_from_min. vm_compute. discriminate. Defined.

(** C2, as stated, fails on a table whose overheated band starts below
    its hot band: a rate under [hot.min] is then not ['normal']. *)
Lemma funding_below_hot_min_counterexample :
  (Qabs (float 0.005) < band_min (hot misordered_thresholds))%Q
  ∧ _determine_funding_status (float 0.005) misordered_thresholds = "overheated"
  ∧ _calculate_risk_level (float 0.005) misordered_thresholds = 5%Z.
Proof. split; [reflexivity|]. split; reflexivity. Qed.

(** C2 (amended): between [hot.min] and [overheated.min] the rate is
    ['hot'] with risk 3; below both [hot.min] and [overheated.min] (so
    below [hot.min] in a table with [hot.min <= overheated.min]) it is
    ['normal'] with risk 1; and two tables with the same [min] fields
    classify alike, whatever their [max] fields. *)
Theorem funding_hot_normal_bands (r : Q) (t : FundingThresholds) :
  ((band_min (hot t) <= Qabs r)%Q → (Qabs r < band_min (overheated t))%Q →
   _determine_funding_status r t = "hot" ∧ _calculate_risk_level r t = 3%Z)
  ∧ ((Qabs r < band_min (hot t))%Q → (Qabs r < band_min (overheated t))%Q →
     _determine_funding_status r t = "normal" ∧ _calculate_risk_level r t = 1%Z)
  ∧ ((band_min (hot t) <= band_min (overheated t))%Q → (Qabs r < band_min (hot t))%Q →
     _determine_funding_status r t = "normal" ∧ _calculate_risk_level r t = 1%Z)
  ∧ (∀ t', same_mins t t' →
     _determine_funding_status r t' = _determine_funding_status r t
     ∧ _calculate_risk_level r t' = _calculate_risk_level r t).
Proof.
  split; [|split; [|split]].
  4: { intros t' (_ & Hh & Ho).
       unfold _determine_funding_status, _calculate_risk_level.
       by rewrite <- Hh, <- Ho. }
  all: intros H1 H2.
  all: destruct (funding_status_risk_cases r t)
         as [(-> & -> & Ho)|[(-> & -> & Ho & Hh)|(-> & -> & Ho & Hh)]]; try done.
  all: exfalso; lra.
Qed.

Lemma funding_hot_normal_bands_witness :
  (_determine_funding_status (float 0.0007) btc_thresholds = "hot"
   ∧ _calculate_risk_level (float 0.0007) btc_thresholds = 3%Z)
  ∧ (_determine_funding_status (float 0.0004) btc_thresholds = "normal"
     ∧ _calculate_risk_level (float 0.0004) btc_thresholds = 1%Z)
  ∧ (_determine_funding_status (float 0.0004) btc_thresholds_narrow
       = _determine_funding_status (float 0.0004) btc_thresholds
     ∧ _calculate_risk_level (float 0.0004) btc_thresholds_narrow
       = _calculate_risk_level (float 0.0004) btc_thresholds).
Proof.
  destruct (funding_hot_normal_bands (float 0.0007) btc_thresholds) as (Hhot & _).
  destruct (funding_hot_normal_bands (float 0.0004) btc_thresholds)
    as (_ & _ & Hordered & Hmax).
  split; [|split].
  - apply Hhot; vm_compute; [discriminate|reflexivity].
  - apply Hordered; vm_compute; [discriminate|reflexivity].
  - apply Hmax. repeat split.
Defined.

(** ** Threshold lookup *)

Lemma get_or_DEFAULT_Some {V} (d : gmap string V) (k : string) (dflt : V) :
  d !! "DEFAULT" = Some dflt →
  get_or_DEFAULT d k = Some (default dflt (d !! k)).
Proof. intros Hd. unfold get_or_DEFAULT. by rewrite Hd. Qed.

Lemma FUNDING_RATE_THRESHOLDS_DEFAULT :
  is_Some (FUNDING_RATE_THRESHOLDS !! "DEFAULT").
Proof. by eexists. Qed.

Lemma OI_THRESHOLDS_DEFAULT : is_Some (OI_THRESHOLDS !! "DEFAULT").
Proof. by eexists. Qed.

(** The keys of both tables. *)
Lemma FUNDING_RATE_THRESHOLDS_lookup_ne k :
  k ≠ "BTC" → k ≠ "ETH" → k ≠ "DEFAULT" → FUNDING_RATE_THRESHOLDS !! k = None.
Proof.
  intros ???. unfold FUNDING_RATE_THRESHOLDS. cbn [list_to_map foldr fst snd].
  by rewrite !lookup_insert_ne, lookup_empty.
Qed.

Lemma OI_THRESHOLDS_lookup_ne k :
  k ≠ "BTC" → k ≠ "ETH" → k ≠ "DEFAULT" → OI_THRESHOLDS !! k = None.
Proof.
  intros ???. unfold OI_THRESHOLDS. cbn [list_to_map foldr fst snd].
  by rewrite !lookup_insert_ne, lookup_empty.
Qed.

Lemma get_symbol_threshold_Some symbol :
  ∃ t, get_symbol_threshold symbol = Some t
       ∧ match FUNDING_RATE_THRESHOLDS !! split_first "/" symbol with
         | Some entry => t = entry
         | None => FUNDING_RATE_THRESHOLDS !! "DEFAULT" = Some t
         end.
Proof.
  destruct FUNDING_RATE_THRESHOLDS_DEFAULT as [dflt Hd].
  unfold get_symbol_threshold. rewrite (get_or_DEFAULT_Some _ _ _ Hd).
  eexists; split; [done|].
  by destruct (FUNDING_RATE_THRESHOLDS !! split_first "/" symbol).
Qed.

Lemma get_oi_threshold_Some symbol :
  ∃ t, get_oi_threshold symbol = Some t
       ∧ match OI_THRESHOLDS !! split_first "/" symbol with
         | Some entry => t = entry
         | None => OI_THRESHOLDS !! "DEFAULT" = Some t
         end.
Proof.
  destruct OI_THRESHOLDS_DEFAULT as [dflt Hd].
  unfold get_oi_threshold. rewrite (get_or_DEFAULT_Some _ _ _ Hd).
  eexists; split; [done|].
  by destruct (OI_THRESHOLDS !! split_first "/" symbol).
Qed.


Example threshold_lookup_examples :
  get_symbol_threshold "BTC/USDT:USDT" = Some btc_thresholds
  ∧ get_symbol_threshold "DOGE/USDT:USDT" = FUNDING_RATE_THRESHOLDS !! "DEFAULT"
  ∧ get_oi_threshold "ETH/USDT:USDT" = Some {| low := 500; high := 2000 |}
  ∧ get_oi_threshold "btc/USDT" = Some {| low := 50; high := 200 |}.
Proof. repeat split. Qed.

(** Every entry of the two tables starts its bands above zero. *)
Lemma get_symbol_threshold_positive symbol t :
  get_symbol_threshold symbol = Some t → positive_mins t.
Proof.
  unfold get_symbol_threshold, get_or_DEFAULT.
  destruct (decide (split_first "/" symbol = "BTC")) as [->|?];
    [intros [= <-]; by split|].
  destruct (decide (split_first "/" symbol = "ETH")) as [->|?];
    [intros [= <-]; by split|].
  destruct (decide (split_first "/" symbol = "DEFAULT")) as [->|?];
    [intros [= <-]; by split|].
  rewrite FUNDING_RATE_THRESHOLDS_lookup_ne by done.
  intros [= <-]; by split.
Qed.

(** Every entry of the funding table starts its hot band at or below
    its overheated band, so on the tables of the configuration a rate
    below [hot.min] is ['normal']. *)
Lemma get_symbol_threshold_ordered symbol t :
  get_symbol_threshold symbol = Some t →
  (band_min (hot t) <= band_min (overheated t))%Q.
Proof.
  unfold get_symbol_threshold, get_or_DEFAULT.
  destruct (decide (split_first "/" symbol = "BTC")) as [->|?];
    [by intros [= <-]|].
  destruct (decide (split_first "/" symbol = "ETH")) as [->|?];
    [by intros [= <-]|].
  destruct (decide (split_first "/" symbol = "DEFAULT")) as [->|?];
    [by intros [= <-]|].
  rewrite FUNDING_RATE_THRESHOLDS_lookup_ne by done.
  by intros [= <-].
Qed.

Corollary configured_below_hot_min_normal symbol t r :
  get_symbol_threshold symbol = Some t →
  (Qabs r < band_min (hot t))%Q →
  _determine_funding_status r t = "normal" ∧ _calculate_risk_level r t = 1%Z.
Proof.
  intros Ht Hr. apply get_symbol_threshold_ordered in Ht.
  destruct (funding_status_risk_cases r t)
    as [(-> & -> & Ho)|[(-> & -> & Ho & Hh)|(-> & -> & Ho & Hh)]]; [| |done].
  all: exfalso; lra.
Qed.

Lemma get_oi_threshold_positive symbol t :
  get_oi_threshold symbol = Some t → positive_bands t.
Proof.
  unfold get_oi_threshold, get_or_DEFAULT.
  destruct (decide (split_first "/" symbol = "BTC")) as [->|?];
    [intros [= <-]; by split|].
  destruct (decide (split_first "/" symbol = "ETH")) as [->|?];
    [intros [= <-]; by split|].
  destruct (decide (split_first "/" symbol = "DEFAULT")) as [->|?];
    [intros [= <-]; by split|].
  rewrite OI_THRESHOLDS_lookup_ne by done.
  intros [= <-]; by split.
Qed.

(** ** The open-interest classifier *)

Lemma oi_status_cases oi_usd t :
  let oi_millions := float_div oi_usd 1000000 in
  (_determine_oi_status oi_usd t = "high" ∧ (high t <= oi_millions)%Q)
  ∨ (_determine_oi_status oi_usd t = "medium"
     ∧ (oi_millions < high t)%Q ∧ (low t <= oi_millions)%Q)
  ∨ (_determine_oi_status oi_usd t = "low"
     ∧ (oi_millions < high t)%Q ∧ (oi_millions < low t)%Q).
Proof.
  unfold _determine_oi_status. cbv zeta.
  destruct (py_ge (float_div oi_usd 1000000) (high t)) eqn:Hh.
  - left. by rewrite py_ge_true in Hh.
  - rewrite py_ge_false in Hh.
    destruct (py_ge (float_div oi_usd 1000000) (low t)) eqn:Hl.
    + right; left. by rewrite py_ge_true in Hl.
    + right; right. by rewrite py_ge_false in Hl.
Qed.

(** The rounded quotient by a million is monotone, and zero at zero. *)
Lemma float_div_mono a b :
  (a <= b)%Q → (float_div a 1000000 <= float_div b 1000000)%Q.
Proof.
  intros Hab. unfold float_div. apply round_binary64_mono.
  unfold Qdiv. apply Qmult_le_compat_r; [done|]. discriminate.
Qed.

Lemma float_div_zero : (float_div 0 1000000 == 0)%Q.
Proof. reflexivity. Qed.

(** C6: a larger open interest never has a smaller rank. *)
Theorem oi_status_monotone (t : OIThresholds) (a b : Q) :
  (a <= b)%Q →
  (oi_rank (_determine_oi_status a t) <= oi_rank (_determine_oi_status b t))%nat.
Proof.
  intros Hab. pose proof (float_div_mono a b Hab) as Hm.
  destruct (oi_status_cases a t) as [(-> & Ha)|[(-> & _ & Ha)|(-> & _)]];
    destruct (oi_status_cases b t) as [(-> & Hb)|[(-> & Hb & Hb')|(-> & Hb & Hb')]];
    cbn; try lia.
  - destruct (Qlt_not_le _ _ Hb). by apply Qle_trans with (float_div a 1000000).
  - destruct (Qlt_not_le _ _ Hb). by apply Qle_trans with (float_div a 1000000).
  - destruct (Qlt_not_le _ _ Hb'). by apply Qle_trans with (float_div a 1000000).
Qed.

Lemma oi_status_monotone_witness :
  (oi_rank (_determine_oi_status 300000000 {| low := 500; high := 2000 |})
   <= oi_rank (_determine_oi_status 1500000000 {| low := 500; high := 2000 |}))%nat.
Proof. apply oi_status_monotone. vm_compute. discriminate. Defined.

(** C7, as stated for every table, fails where a band starts at zero:
    a rate of zero is then ['hot'], an open interest of zero
    ['medium']. *)
Lemma zero_not_normal_counterexample :
  (_determine_funding_status 0 zero_hot_thresholds = "hot"
   ∧ _calculate_risk_level 0 zero_hot_thresholds = 3%Z)
  ∧ _determine_oi_status 0 {| low := 0; high := 200 |} = "medium".
Proof. repeat split. Qed.

(** C7 (amended): both classifiers return one of their labels on every
    input and table; a rate of zero is ['normal'] with risk 1 exactly in
    the tables whose hot and overheated bands start above zero, an open
    interest of zero is ['low'] exactly in the tables whose bands start
    above zero, and every table that the two lookups return is one. *)
Theorem classifiers_total_and_zero :
  (∀ r t, (_determine_funding_status r t, _calculate_risk_level r t)
          ∈ [("overheated", 5%Z); ("hot", 3%Z); ("normal", 1%Z)])
  ∧ (∀ oi_usd t, _determine_oi_status oi_usd t ∈ ["high"; "medium"; "low"])
  ∧ (∀ t, _determine_funding_status 0 t = "normal" ∧ _calculate_risk_level 0 t = 1%Z
          ↔ positive_mins t)
  ∧ (∀ t, _determine_oi_status 0 t = "low" ↔ positive_bands t)
  ∧ (∀ symbol, ∃ t, get_symbol_threshold symbol = Some t ∧ positive_mins t)
  ∧ (∀ symbol, ∃ t, get_oi_threshold symbol = Some t ∧ positive_bands t).
Proof.
  split; [|split; [|split; [|split; [|split]]]].
  - intros r t.
    destruct (funding_status_risk_cases r t) as [(-> & -> &_)|[(-> & -> &_)|(-> & -> &_)]].
    + left.
    + right; left.
    + do 2 right; left.
  - intros a t.
    destruct (oi_status_cases a t) as [(-> &_)|[(-> &_)|(-> &_)]].
    + left.
    + right; left.
    + do 2 right; left.
  - intros t. unfold positive_mins.
    destruct (funding_status_risk_cases 0 t)
      as [(-> & -> & Ho)|[(-> & -> & Ho & Hh)|(-> & -> & Ho & Hh)]];
      change (Qabs 0) with 0%Q in *.
    + split; [by intros [[=] _]|]. intros [_ Hlt]. destruct (Qlt_not_le _ _ Hlt Ho).
    + split; [by intros [[=] _]|]. intros [Hlt _]. destruct (Qlt_not_le _ _ Hlt Hh).
    + done.
  - intros t. unfold positive_bands. pose proof float_div_zero as Hz.
    destruct (oi_status_cases 0 t) as [(-> & Hh)|[(-> & Hh & Hl)|(-> & Hh & Hl)]];
      cbv zeta in *; rewrite Hz in *.
    + split; [by intros [=]|]. intros [_ Hlt]. destruct (Qlt_not_le _ _ Hlt Hh).
    + split; [by intros [=]|]. intros [Hlt _]. destruct (Qlt_not_le _ _ Hlt Hl).
    + done.
  - intros symbol. destruct (get_symbol_threshold_Some symbol) as (t & Ht & _).
    exists t. split; [done|]. by eapply get_symbol_threshold_positive.
  - intros symbol. destruct (get_oi_threshold_Some symbol) as (t & Ht & _).
    exists t. split; [done|]. by eapply get_oi_threshold_positive.
Qed.

Lemma classifiers_total_and_zero_witness :
  (_determine_funding_status 0 btc_thresholds = "normal"
   ∧ _calculate_risk_level 0 btc_thresholds = 1%Z)
  ∧ _determine_oi_status 0 {| low := 1000; high := 5000 |} = "low".
Proof.
  destruct classifiers_total_and_zero as (_ & _ & Hrate & Hoi & _).
  split.
  - apply Hrate. split; reflexivity.
  - apply Hoi. split; reflexivity.
Defined.

(** ** The combined signal *)

(** The signal is the market-normal text exactly when no axis
    contributes. *)
Lemma generate_combined_signal_normal funding_data oi_data price_data :
  _generate_combined_signal funding_data oi_data price_data = "市場正常"
  ↔ get_field fa_status "unknown" funding_data ≠ "overheated"
    ∧ get_field oa_oi_status "unknown" oi_data ≠ "high"
    ∧ (Qabs (get_field pi_change_24h_percent 0%Q price_data) <= 5)%Q.
Proof.
  unfold _generate_combined_signal.
  destruct funding_data as [fd|], oi_data as [od|], price_data as [pd|];
    cbn [get_field from_option].
  (* which axes contribute *)
  all: repeat match goal with
         | |- context [String.eqb ?a ?b] => destruct (String.eqb_spec a b)
         end.
  all: try (destruct (py_gt (Qabs (pi_change_24h_percent pd)) 5) eqn:Hpc;
            [apply py_gt_true in Hpc|apply py_gt_false in Hpc]).
  (* the wording of a contribution does not matter *)
  all: try generalize (format_f false 2 (pi_change_24h_percent pd)); intros.
  all: try destruct (py_gt (fa_funding_rate fd) 0).
  all: try destruct (py_gt (pi_change_24h_percent pd) 0).
  all: cbn [app String.concat].
  all: split; [intros Heq|intros (Hf & Ho & Hp)].
  (* a joined message starts with another character than the normal text *)
  all: try (cbn in Heq; discriminate Heq).
  all: try (by destruct Hf).
  all: try (by destruct Ho).
  all: try (by destruct (Qlt_not_le _ _ Hpc Hp)).
  all: repeat split; done.
Qed.


(** The same on the record that [combine_analysis] stores. *)
Corollary combined_record_signal_normal now funding_analysis oi_analysis price_dict symbol :
  let r := combined_record now funding_analysis oi_analysis price_dict symbol in
  cr_combined_signal r = "市場正常"
  ↔ cr_funding_status r ≠ "overheated"
    ∧ cr_oi_status r ≠ "high"
    ∧ (Qabs (cr_price_change_24h_percent r) <= 5)%Q.
Proof. apply generate_combined_signal_normal. Qed.

(** ** Dicts *)

Lemma dict_get_set {V} (d : list (string * V)) k v k' :
  dict_get (dict_set d k v) k' = if decide (k = k') then Some v else dict_get d k'.
Proof.
  induction d as [|[k0 v0] d IH]; cbn.
  - destruct (String.eqb_spec k k'); by case_decide.
  - destruct (String.eqb_spec k0 k) as [->|Hne]; cbn.
    + destruct (String.eqb_spec k k'); by case_decide.
    + destruct (String.eqb_spec k0 k') as [->|Hne'].
      * by rewrite decide_False by done.
      * done.
Qed.

Lemma dict_get_None {V} (d : list (string * V)) k :
  dict_get d k = None ↔ k ∉ d.*1.
Proof.
  induction d as [|[k0 v0] d IH]; cbn.
  - split; [intros _; apply not_elem_of_nil|done].
  - rewrite not_elem_of_cons.
    destruct (String.eqb_spec k0 k) as [->|Hne]; [by split; [|intros []]|].
    rewrite IH. split; [by split|by intros []].
Qed.


Lemma dict_get_NoDup {V} (d : list (string * V)) k v :
  NoDup d.*1 → (k, v) ∈ d → dict_get d k = Some v.
Proof.
  induction d as [|[k0 v0] d IH]; cbn; [by intros _ ?%elem_of_nil|].
  rewrite NoDup_cons. intros [Hk0 Hd] Hin.
  apply elem_of_cons in Hin as [[= -> ->]|Hin].
  - by rewrite String.eqb_refl.
  - destruct (String.eqb_spec k0 k) as [->|Hne]; [|auto].
    destruct Hk0. apply list_elem_of_fmap. by exists (k, v).
Qed.

Lemma dict_set_keys {V} (d : list (string * V)) k v :
  (dict_set d k v).*1 = if decide (k ∈ d.*1) then d.*1 else d.*1 ++ [k].
Proof.
  induction d as [|[k0 v0] d IH]; cbn.
  - rewrite decide_False; [done|apply not_elem_of_nil].
  - destruct (String.eqb_spec k0 k) as [->|Hne]; cbn.
    + rewrite decide_True; [done|left].
    + rewrite IH. destruct (decide (k ∈ d.*1)) as [Hin|Hin].
      * rewrite decide_True; [done|by right].
      * rewrite decide_False; [done|]. rewrite not_elem_of_cons. by split.
Qed.

(** The loop that stores one record per element of [keys]. *)
Lemma dict_set_loop_get {V} (f : string → V) keys (d : list (string * V)) k :
  dict_get (foldl (fun d k => dict_set d k (f k)) d keys) k
  = if decide (k ∈ keys) then Some (f k) else dict_get d k.
Proof.
  revert d. induction keys as [|k0 keys IH]; intros d; cbn.
  - rewrite decide_False; [done|apply not_elem_of_nil].
  - rewrite IH. destruct (decide (k ∈ keys)) as [Hin|Hin].
    + rewrite decide_True; [done|by right].
    + rewrite dict_get_set. destruct (decide (k0 = k)) as [->|Hne].
      * rewrite decide_True; [done|left].
      * rewrite decide_False; [done|]. rewrite not_elem_of_cons. by split.
Qed.

Lemma dict_set_loop_keys {V} (f : string → V) keys (d : list (string * V)) :
  NoDup (d.*1 ++ keys) →
  (foldl (fun d k => dict_set d k (f k)) d keys).*1 = d.*1 ++ keys.
Proof.
  revert d. induction keys as [|k0 keys IH]; intros d Hnd; cbn.
  - by rewrite app_nil_r.
  - apply NoDup_app in Hnd as (Hd & Hdisj & Hkeys).
    assert (Hk0 : k0 ∉ d.*1) by (intros Hin; apply (Hdisj _ Hin); left).
    rewrite IH; rewrite dict_set_keys, decide_False by done.
    + by rewrite <- app_assoc.
    + rewrite <- app_assoc. apply NoDup_app. by split.
Qed.

(** ** The aggregator *)


Lemma foldl_insert_lookup_None {A V} (key : A → string) (val : A → V)
    (rows : list A) (acc : gmap string V) (k : string) :
  foldl (fun d row => <[key row := val row]> d) acc rows !! k = None
  ↔ acc !! k = None ∧ ∀ row, row ∈ rows → key row ≠ k.
Proof.
  revert acc. induction rows as [|row rows IH]; intros acc; cbn.
  - split; [intros Hk; split; [done|by intros ? ?%elem_of_nil]|by intros []].
  - rewrite IH, lookup_insert_None. split.
    + intros [[Hacc Hrow] Hrows]. split; [done|].
      intros row' [->|Hin]%elem_of_cons; auto.
    + intros [Hacc Hrows]. split; [split; [done|]|].
      * apply Hrows. left.
      * intros row' Hin. apply Hrows. by right.
Qed.

(** What [combine_analysis] stores: the keys are the elements of the
    union, each with the record of the loop body, for a price dict that
    has an entry for exactly the symbols of the price rows. *)
Lemma combine_analysis_get now (funding_analysis : gmap string FundingAnalysis)
    (oi_analysis : gmap string OIAnalysis) (price_data : list PriceRow) :
  ∃ price_dict : gmap string PriceInfo,
    (∀ s, price_dict !! s = None ↔ ∀ row, row ∈ price_data → pr_symbol row ≠ s)
    ∧ (combine_analysis now funding_analysis oi_analysis price_data).*1
      = elements (dom funding_analysis ∪ dom oi_analysis)
    ∧ ∀ s, dict_get (combine_analysis now funding_analysis oi_analysis price_data) s
           = if decide (s ∈ dom funding_analysis ∪ dom oi_analysis)
             then Some (combined_record now funding_analysis oi_analysis price_dict s)
             else None.
Proof.
  unfold combine_analysis.
  match goal with
  | |- context [combined_record _ _ _ ?pd] => exists pd
  end.
  split; [|split].
  - intros s. rewrite foldl_insert_lookup_None, lookup_empty. split; [by intros []|done].
  - rewrite dict_set_loop_keys; [done|]. cbn. apply NoDup_elements.
  - intros s.
    rewrite (dict_set_loop_get
               (combined_record now funding_analysis oi_analysis _)).
    cbn. destruct (decide (s ∈ dom funding_analysis ∪ dom oi_analysis)) as [Hin|Hin].
    + rewrite decide_True; [done|by apply elem_of_elements].
    + rewrite decide_False; [done|by rewrite elem_of_elements].
Qed.





(** ** The alert selector *)

Lemma alert_condition_overheated funding_status oi_status :
  alert_condition funding_status oi_status = true ↔ funding_status = "overheated".
Proof.
  unfold alert_condition, str_in. cbn.
  destruct (String.eqb_spec funding_status "overheated") as [->|Hne]; cbn; [done|].
  split; [discriminate|done].
Qed.

(** The loop appends the alerts of the overheated items, in order. *)
Lemma check_alerts_filter analysis :
  _check_alerts analysis = alert_of <$> filter (has_status "overheated") analysis.
Proof.
  unfold _check_alerts.
  enough (Hloop : ∀ alerts,
    foldl (fun alerts '(symbol, data) =>
             let funding_status := cr_funding_status data in
             let oi_status := cr_oi_status data in
             if alert_condition funding_status oi_status then
               alerts ++ [ {| al_symbol := symbol;
                              al_base_currency := cr_base_currency data;
                              al_funding_rate_percent := cr_funding_rate_percent data;
                              al_status := funding_status;
                              al_signal := cr_combined_signal data;
                              al_priority := "high" |} ]
             else alerts) alerts analysis
    = alerts ++ (alert_of <$> filter (has_status "overheated") analysis))
    by apply (Hloop []).
  induction analysis as [|[symbol data] analysis IH]; intros alerts; cbn.
  - by rewrite app_nil_r.
  - rewrite IH.
    destruct (alert_condition _ _) eqn:Hcond.
    + apply alert_condition_overheated in Hcond.
      rewrite decide_True by done. by rewrite <- app_assoc.
    + rewrite decide_False; [done|].
      intros Hs. unfold has_status in Hs. cbn [snd] in Hs.
      pose proof (proj2 (alert_condition_overheated _ (cr_oi_status data)) Hs) as Htrue.
      congruence.
Qed.

Lemma alerts_of_symbol analysis symbol :
  NoDup analysis.*1 →
  length (filter (fun a => al_symbol a = symbol)
                 (alert_of <$> filter (has_status "overheated") analysis))
  = match dict_get analysis symbol with
    | Some data => if decide (cr_funding_status data = "overheated") then 1 else 0
    | None => 0
    end.
Proof.
  induction analysis as [|[k data] analysis IH]; [done|].
  cbn [fmap list_fmap fst dict_get]. rewrite NoDup_cons. intros [Hk Hnd].
  specialize (IH Hnd). rewrite filter_cons. unfold has_status at 1. cbn [snd].
  destruct (String.eqb_spec k symbol) as [->|Hne].
  - apply dict_get_None in Hk. rewrite Hk in IH.
    destruct (decide (cr_funding_status data = "overheated")); [|done].
    rewrite fmap_cons, filter_cons. cbn [alert_of al_symbol fst].
    rewrite decide_True by done. cbn. by rewrite IH.
  - destruct (decide (cr_funding_status data = "overheated")); [|done].
    rewrite fmap_cons, filter_cons. cbn [alert_of al_symbol fst].
    by rewrite decide_False by done.
Qed.

(** C4: the alerts are those of the items whose funding status is
    ['overheated'], in order: one alert for each symbol with that status
    and none for any other symbol; the open-interest status has no part
    in the selection; every alert has priority ['high']. *)
Theorem check_alerts_selects_overheated (analysis : list (string * CombinedRecord)) :
  NoDup analysis.*1 →
  let alerts := _check_alerts analysis in
  alerts = alert_of <$> filter (has_status "overheated") analysis
  ∧ (∀ symbol,
       length (filter (fun a => al_symbol a = symbol) alerts)
       = match dict_get analysis symbol with
         | Some data => if decide (cr_funding_status data = "overheated") then 1 else 0
         | None => 0
         end)
  ∧ (∀ funding_status oi_status oi_status',
       alert_condition funding_status oi_status
       = alert_condition funding_status oi_status')
  ∧ Forall (fun a => al_priority a = "high") alerts.
Proof.
  intros Hnd alerts. subst alerts. rewrite check_alerts_filter.
  split; [done|]. split; [|split].
  - intros symbol. by apply alerts_of_symbol.
  - intros fs oi oi'. apply eq_true_iff_eq. by rewrite !alert_condition_overheated.
  - apply Forall_fmap, Forall_forall. done.
Qed.

Lemma check_alerts_selects_overheated_witness :
  _check_alerts sample_batch
  = [ {| al_symbol := "ETH/USDT:USDT";
         al_base_currency := "ETH";
         al_funding_rate_percent := - float 0.25;
         al_status := "overheated";
         al_signal := "市場正常";
         al_priority := "high" |} ]
  ∧ Forall (fun a => al_priority a = "high") (_check_alerts sample_batch).
Proof.
  destruct (check_alerts_selects_overheated sample_batch) as (Halerts & _ & _ & Hhigh).
  - apply (bool_decide_unpack _). vm_compute. exact I.
  - split; [exact Halerts|exact Hhigh].
Defined.

(** ** The report *)


Lemma string_app_empty_r (a : string) : a +:+ "" = a.
Proof.
  induction a as [|ch a IH]; [done|].
  change (String ch (a +:+ "") = String ch a). by rewrite IH.
Qed.









(** The report of the sample batch: the two items of equal absolute
    rate keep their order. *)
Example report_message_sample :
  _format_report_message "2025-01-01 00:00:00" sample_batch "5min"
  = "📊 **Binance 資金費率報告** (5min)
⏰ 2025-01-01 00:00:00

📈 總計幣種: 5
🔥 過熱: 1
🟡 偏熱: 2

**資金費率TOP 3:**
🔥 ETH: -0.2500%
🟡 BNB: +0.0600%
🟡 ADA: -0.0600%
".
Proof. vm_compute. reflexivity. Qed.

(** ** The analyses *)

(** The loop of [analyze_funding_rate] never raises: every lookup of
    thresholds succeeds. *)
Lemma analyze_funding_rate_records funding_df symbol rec :
  analyze_funding_rate funding_df !! symbol = Some rec →
  (fa_status rec, fa_risk_level rec)
  ∈ [("overheated", 5%Z); ("hot", 3%Z); ("normal", 1%Z)].
Proof.
  unfold analyze_funding_rate.
  match goal with
  | |- default ∅ (foldl ?f _ _) !! _ = _ → _ => set (step := f)
  end.
  enough (Hinv : ∀ acc : gmap string FundingAnalysis,
    (∀ s r, acc !! s = Some r →
       (fa_status r, fa_risk_level r)
       ∈ [("overheated", 5%Z); ("hot", 3%Z); ("normal", 1%Z)]) →
    ∃ res, foldl step (Some acc) funding_df = Some res
           ∧ ∀ s r, res !! s = Some r →
               (fa_status r, fa_risk_level r)
               ∈ [("overheated", 5%Z); ("hot", 3%Z); ("normal", 1%Z)]).
  { destruct (Hinv ∅) as (res & -> & Hres); [by intros s r; rewrite lookup_empty|].
    apply Hres. }
  induction funding_df as [|row funding_df IH]; intros acc Hacc; cbn [foldl].
  - by exists acc.
  - unfold step at 2. cbn [mbind option_bind].
    destruct (get_symbol_threshold_Some (fr_symbol row)) as (t & -> & _).
    cbn [mbind option_bind]. apply IH.
    intros s r. rewrite lookup_insert. case_decide; [intros [= <-]; cbn|by apply Hacc].
    destruct (funding_status_risk_cases (fr_funding_rate row) t)
      as [(-> & -> &_)|[(-> & -> &_)|(-> & -> &_)]].
    + left.
    + right; left.
    + do 2 right; left.
Qed.

Lemma analyze_open_interest_records oi_df symbol rec :
  analyze_open_interest oi_df !! symbol = Some rec →
  oa_oi_status rec ∈ ["high"; "medium"; "low"].
Proof.
  unfold analyze_open_interest.
  match goal with
  | |- default ∅ (foldl ?f _ _) !! _ = _ → _ => set (step := f)
  end.
  enough (Hinv : ∀ acc : gmap string OIAnalysis,
    (∀ s r, acc !! s = Some r → oa_oi_status r ∈ ["high"; "medium"; "low"]) →
    ∃ res, foldl step (Some acc) oi_df = Some res
           ∧ ∀ s r, res !! s = Some r → oa_oi_status r ∈ ["high"; "medium"; "low"]).
  { destruct (Hinv ∅) as (res & -> & Hres); [by intros s r; rewrite lookup_empty|].
    apply Hres. }
  induction oi_df as [|row oi_df IH]; intros acc Hacc; cbn [foldl].
  - by exists acc.
  - unfold step at 2. cbn [mbind option_bind].
    destruct (get_oi_threshold_Some (or_symbol row)) as (t & -> & _).
    cbn [mbind option_bind]. apply IH.
    intros s r. rewrite lookup_insert. case_decide; [intros [= <-]; cbn|by apply Hacc].
    destruct (oi_status_cases (or_open_interest_usd row) t) as [(-> &_)|[(-> &_)|(-> &_)]].
    + left.
    + right; left.
    + do 2 right; left.
Qed.

(** ** Examples of the specification *)

(** A rate of 0.0012 for BTC is overheated, with risk 5 and the
    long-crowding signal. *)
Example btc_rate_overheated :
  analyze_funding_rate
    [ {| fr_symbol := "BTC/USDT:USDT";
         fr_base_currency := "BTC";
         fr_funding_rate := float 0.0012;
         fr_funding_time := 0;
         fr_timestamp := 0;
         fr_annualized_rate := float_mul (float_mul (float 0.0012) 365) 3 |} ]
    !! "BTC/USDT:USDT"
  = Some {| fa_base_currency := "BTC";
            fa_funding_rate := float 0.0012;
            fa_funding_rate_percent := float_mul (float 0.0012) 100;
            fa_annualized_rate := float_mul (float_mul (float 0.0012) 365) 3;
            fa_annualized_rate_percent :=
              float_mul (float_mul (float_mul (float 0.0012) 365) 3) 100;
            fa_status := "overheated";
            fa_risk_level := 5;
            fa_signal := "🔴 多頭擁擠，小心回調";
            fa_timestamp := 0 |}.
Proof. vm_compute. reflexivity. Qed.

(** An open interest of 1.5 billion USD for ETH is 1500 millions,
    between the low band 500 and the high band 2000: medium. *)
Example eth_open_interest_medium :
  (float_div 1500000000 1000000 == 1500)%Q
  ∧ get_oi_threshold "ETH/USDT:USDT" = Some {| low := 500; high := 2000 |}
  ∧ _determine_oi_status 1500000000 {| low := 500; high := 2000 |} = "medium".
Proof. repeat split. Qed.

(** Overheated funding with a positive rate, high open interest and a
    price change of 7.2 percent: three clauses, in this order. *)
Example combined_signal_three_clauses :
  _generate_combined_signal
    (Some btc_funding) (Some eth_open_interest)
    (Some {| pi_price := 1; pi_change_24h_percent := float 7.2; pi_volume_24h := 1 |})
  = "資金費率過熱(多頭擁擠) | 未平倉合約偏高 | 價格大幅上漲(7.20%)".
Proof. vm_compute. reflexivity. Qed.

(** * Further properties *)

(** ** The analyses, row by row *)

Lemma last_with_snoc_eq {A} (key : A → string) rows row :
  last_with key (key row) (rows ++ [row]) row.
Proof. exists rows, []. split; [done|]. split; [done|]. by intros r ?%elem_of_nil. Qed.

Lemma last_with_snoc_ne {A} (key : A → string) symbol rows row r :
  key r ≠ symbol → last_with key symbol rows row → last_with key symbol (rows ++ [r]) row.
Proof.
  intros Hne (before & after & -> & Hkey & Hafter).
  exists before, (after ++ [r]). split; [by rewrite <- app_assoc|]. split; [done|].
  intros r' [Hin|Heq%list_elem_of_singleton]%elem_of_app; [auto|by subst].
Qed.

Lemma analyze_funding_rate_lookup funding_df :
  ∀ symbol,
    match analyze_funding_rate funding_df !! symbol with
    | None => ∀ row, row ∈ funding_df → fr_symbol row ≠ symbol
    | Some rec =>
        ∃ row t,
          last_with fr_symbol symbol funding_df row
          ∧ get_symbol_threshold symbol = Some t
          ∧ fa_base_currency rec = fr_base_currency row
          ∧ fa_funding_rate rec = fr_funding_rate row
          ∧ fa_funding_rate_percent rec = float_mul (fr_funding_rate row) 100
          ∧ fa_annualized_rate rec = fr_annualized_rate row
          ∧ fa_annualized_rate_percent rec = float_mul (fr_annualized_rate row) 100
          ∧ fa_status rec = _determine_funding_status (fr_funding_rate row) t
          ∧ fa_risk_level rec = _calculate_risk_level (fr_funding_rate row) t
          ∧ fa_signal rec
            = _generate_signal (fr_funding_rate row) (fa_status rec) (fa_risk_level rec)
          ∧ fa_timestamp rec = fr_timestamp row
    end.
Proof.
  unfold analyze_funding_rate.
  match goal with
  | |- ∀ _, match default ∅ (foldl ?f _ _) !! _ with _ => _ end => set (step := f)
  end.
  induction funding_df as [|row funding_df IH] using rev_ind; intros symbol.
  - cbn. rewrite lookup_empty. by intros row ?%elem_of_nil.
  - rewrite foldl_snoc.
    destruct (foldl step (Some ∅) funding_df) as [res|] eqn:Hres.
    2: { (* the loop does not fail *)
      exfalso. clear IH. revert Hres. generalize (∅ : gmap string FundingAnalysis).
      induction funding_df as [|r l IHl]; intros acc; cbn [foldl]; [done|].
      unfold step at 2. cbn [mbind option_bind].
      destruct (get_symbol_threshold_Some (fr_symbol r)) as (t & -> & _).
      apply IHl. }
    cbn [default from_option id] in IH. unfold step. cbn [mbind option_bind].
    destruct (get_symbol_threshold_Some (fr_symbol row)) as (t & Ht & _).
    rewrite Ht. cbn [mbind option_bind default from_option id].
    rewrite lookup_insert. case_decide as Hsym.
    + exists row, t. subst symbol. split; [apply last_with_snoc_eq|]. by repeat split.
    + specialize (IH symbol). destruct (res !! symbol) as [rec|].
      * destruct IH as (row' & t' & Hlast & IH). exists row', t'.
        split; [by apply last_with_snoc_ne|done].
      * intros r [Hin|Heq%list_elem_of_singleton]%elem_of_app; [auto|by subst].
Qed.

Lemma analyze_open_interest_lookup oi_df :
  ∀ symbol,
    match analyze_open_interest oi_df !! symbol with
    | None => ∀ row, row ∈ oi_df → or_symbol row ≠ symbol
    | Some rec =>
        ∃ row t,
          last_with or_symbol symbol oi_df row
          ∧ get_oi_threshold symbol = Some t
          ∧ oa_base_currency rec = or_base_currency row
          ∧ oa_open_interest rec = or_open_interest row
          ∧ oa_open_interest_usd rec = or_open_interest_usd row
          ∧ oa_open_interest_usd_millions rec
            = float_div (or_open_interest_usd row) 1000000
          ∧ oa_mark_price rec = or_mark_price row
          ∧ oa_oi_status rec = _determine_oi_status (or_open_interest_usd row) t
          ∧ oa_timestamp rec = or_timestamp row
    end.
Proof.
  unfold analyze_open_interest.
  match goal with
  | |- ∀ _, match default ∅ (foldl ?f _ _) !! _ with _ => _ end => set (step := f)
  end.
  induction oi_df as [|row oi_df IH] using rev_ind; intros symbol.
  - cbn. rewrite lookup_empty. by intros row ?%elem_of_nil.
  - rewrite foldl_snoc.
    destruct (foldl step (Some ∅) oi_df) as [res|] eqn:Hres.
    2: { (* the loop does not fail *)
      exfalso. clear IH. revert Hres. generalize (∅ : gmap string OIAnalysis).
      induction oi_df as [|r l IHl]; intros acc; cbn [foldl]; [done|].
      unfold step at 2. cbn [mbind option_bind].
      destruct (get_oi_threshold_Some (or_symbol r)) as (t & -> & _).
      apply IHl. }
    cbn [default from_option id] in IH. unfold step. cbn [mbind option_bind].
    destruct (get_oi_threshold_Some (or_symbol row)) as (t & Ht & _).
    rewrite Ht. cbn [mbind option_bind default from_option id].
    rewrite lookup_insert. case_decide as Hsym.
    + exists row, t. subst symbol. split; [apply last_with_snoc_eq|]. by repeat split.
    + specialize (IH symbol). destruct (res !! symbol) as [rec|].
      * destruct IH as (row' & t' & Hlast & IH). exists row', t'.
        split; [by apply last_with_snoc_ne|done].
      * intros r [Hin|Heq%list_elem_of_singleton]%elem_of_app; [auto|by subst].
Qed.

Lemma last_with_elem_of {A} (key : A → string) symbol rows row :
  last_with key symbol rows row → row ∈ rows ∧ key row = symbol.
Proof.
  intros (before & after & -> & Hkey & _). split; [|done].
  apply elem_of_app. right. left.
Qed.


(** X1: [analyze_funding_rate] never takes its [except] branch: its keys
    are the symbols of the rows, and the record of a symbol comes from
    the last row with that symbol, classified with the thresholds of the
    symbol; base currency, rate and capture time are carried through. *)
Theorem analyze_funding_rate_last_row (funding_df : list FundingRow) :
  dom (analyze_funding_rate funding_df) = list_to_set (fr_symbol <$> funding_df)
  ∧ ∀ symbol rec,
      analyze_funding_rate funding_df !! symbol = Some rec →
      ∃ row t,
        last_with fr_symbol symbol funding_df row
        ∧ get_symbol_threshold symbol = Some t
        ∧ fa_base_currency rec = fr_base_currency row
        ∧ fa_funding_rate rec = fr_funding_rate row
        ∧ fa_funding_rate_percent rec = float_mul (fr_funding_rate row) 100
        ∧ fa_status rec = _determine_funding_status (fr_funding_rate row) t
        ∧ fa_risk_level rec = _calculate_risk_level (fr_funding_rate row) t
        ∧ fa_timestamp rec = fr_timestamp row.
Proof.
  split.
  - apply set_eq. intros symbol.
    rewrite elem_of_dom, elem_of_list_to_set, list_elem_of_fmap.
    pose proof (analyze_funding_rate_lookup funding_df symbol) as Hl.
    destruct (analyze_funding_rate funding_df !! symbol) as [rec|].
    + destruct Hl as (row & _ & Hlast & _). apply last_with_elem_of in Hlast as [??].
      split; [by exists row|by eexists].
    + split; [by intros []|]. intros (row & -> & Hin). by destruct (Hl row).
  - intros symbol rec Hrec.
    pose proof (analyze_funding_rate_lookup funding_df symbol) as Hl. rewrite Hrec in Hl.
    destruct Hl as (row & t & ? & ? & ? & ? & ? & ? & ? & ? & ? & ? & ?).
    by exists row, t.
Qed.

(** Every entry of the open-interest table has its low band below its
    high band. *)
Lemma get_oi_threshold_ordered symbol t :
  get_oi_threshold symbol = Some t → (low t < high t)%Q.
Proof.
  unfold get_oi_threshold, get_or_DEFAULT.
  destruct (decide (split_first "/" symbol = "BTC")) as [->|?];
    [by intros [= <-]|].
  destruct (decide (split_first "/" symbol = "ETH")) as [->|?];
    [by intros [= <-]|].
  destruct (decide (split_first "/" symbol = "DEFAULT")) as [->|?];
    [by intros [= <-]|].
  rewrite OI_THRESHOLDS_lookup_ne by done.
  by intros [= <-].
Qed.

(** X2: [analyze_open_interest] never takes its [except] branch: its
    keys are the symbols of the rows, the record of a symbol comes from
    the last row with that symbol, and the status stored in a record
    agrees with the millions stored beside it: ['high'] from the high
    band, ['medium'] between the bands, ['low'] below the low band. *)
Theorem analyze_open_interest_last_row (oi_df : list OIRow) :
  dom (analyze_open_interest oi_df) = list_to_set (or_symbol <$> oi_df)
  ∧ ∀ symbol rec,
      analyze_open_interest oi_df !! symbol = Some rec →
      ∃ row t,
        last_with or_symbol symbol oi_df row
        ∧ get_oi_threshold symbol = Some t
        ∧ oa_base_currency rec = or_base_currency row
        ∧ oa_open_interest_usd rec = or_open_interest_usd row
        ∧ oa_open_interest_usd_millions rec = float_div (or_open_interest_usd row) 1000000
        ∧ oa_timestamp rec = or_timestamp row
        ∧ (oa_oi_status rec = "high"
           ↔ (high t <= oa_open_interest_usd_millions rec)%Q)
        ∧ (oa_oi_status rec = "medium"
           ↔ (low t <= oa_open_interest_usd_millions rec < high t)%Q)
        ∧ (oa_oi_status rec = "low"
           ↔ (oa_open_interest_usd_millions rec < low t)%Q).
Proof.
  split.
  - apply set_eq. intros symbol.
    rewrite elem_of_dom, elem_of_list_to_set, list_elem_of_fmap.
    pose proof (analyze_open_interest_lookup oi_df symbol) as Hl.
    destruct (analyze_open_interest oi_df !! symbol) as [rec|].
    + destruct Hl as (row & _ & Hlast & _). apply last_with_elem_of in Hlast as [??].
      split; [by exists row|by eexists].
    + split; [by intros []|]. intros (row & -> & Hin). by destruct (Hl row).
  - intros symbol rec Hrec.
    pose proof (analyze_open_interest_lookup oi_df symbol) as Hl. rewrite Hrec in Hl.
    destruct Hl as (row & t & Hlast & Ht & Hbase & _ & Husd & Hm & _ & Hstatus & Htime).
    exists row, t. do 6 (split; [done|]).
    pose proof (get_oi_threshold_ordered _ _ Ht) as Hord.
    rewrite Hstatus, Hm.
    destruct (oi_status_cases (or_open_interest_usd row) t)
      as [(-> & Hh)|[(-> & Hh & Hl)|(-> & Hh & Hl)]]; cbv zeta in *.
    + split; [done|]. split; (split; [done|]); [intros [_ Hc]|intros Hc]; exfalso; lra.
    + split; [split; [done|intros Hc; exfalso; lra]|].
      split; [done|]. split; [done|intros Hc; exfalso; lra].
    + split; [split; [done|intros Hc; exfalso; lra]|].
      split; [|done]. split; [done|intros [Hc _]; exfalso; lra].
Qed.

(** X3: in every record of [analyze_funding_rate], status and risk
    level go together, and the signal text tells status and direction:
    the two overheated texts and the two hot texts by the sign of the
    rate (a rate of zero counts as not positive), the neutral text for
    ['normal']. *)
Theorem analyze_funding_rate_signal (funding_df : list FundingRow)
    (symbol : string) (rec : FundingAnalysis) :
  analyze_funding_rate funding_df !! symbol = Some rec →
  (fa_status rec, fa_risk_level rec)
    ∈ [("overheated", 5%Z); ("hot", 3%Z); ("normal", 1%Z)]
  ∧ (fa_signal rec = "🔴 多頭擁擠，小心回調"
     ↔ fa_status rec = "overheated" ∧ (0 < fa_funding_rate rec)%Q)
  ∧ (fa_signal rec = "🟢 空頭擠壓，可能反彈"
     ↔ fa_status rec = "overheated" ∧ (fa_funding_rate rec <= 0)%Q)
  ∧ (fa_signal rec = "🟡 多頭偏熱，注意風險"
     ↔ fa_status rec = "hot" ∧ (0 < fa_funding_rate rec)%Q)
  ∧ (fa_signal rec = "🟡 空頭偏冷，關注機會"
     ↔ fa_status rec = "hot" ∧ (fa_funding_rate rec <= 0)%Q)
  ∧ (fa_signal rec = "⚪ 資金費率正常" ↔ fa_status rec = "normal").
Proof.
  intros Hrec.
  pose proof (analyze_funding_rate_lookup funding_df symbol) as Hl. rewrite Hrec in Hl.
  destruct Hl as (row & t & _ & _ & _ & Hrate & _ & _ & _ & Hstatus & Hrisk & Hsignal & _).
  rewrite Hsignal, Hrate. clear Hsignal.
  destruct (funding_status_risk_cases (fr_funding_rate row) t)
    as [(Hs & Hr & _)|[(Hs & Hr & _)|(Hs & Hr & _)]];
    rewrite Hs in Hstatus; rewrite Hr in Hrisk; rewrite Hstatus, Hrisk;
    unfold _generate_signal; cbn [String.eqb Ascii.eqb Bool.eqb];
    (split; [set_solver|]).
  all: destruct (py_gt (fr_funding_rate row) 0) eqn:Hgt;
    [apply py_gt_true in Hgt|apply py_gt_false in Hgt].
  all: repeat split; try done; try (intros [_ Hc]; exfalso; lra); try (by intros [[=] _]).
Qed.

Lemma analyze_funding_rate_last_row_witness :
  ∃ rec, analyze_funding_rate sample_funding_df !! "BTC/USDT:USDT" = Some rec
         ∧ fa_funding_rate rec = float 0.0012
         ∧ fa_status rec = "overheated"
         ∧ fa_timestamp rec = 2%Z.
Proof.
  destruct (analyze_funding_rate_last_row sample_funding_df) as [_ Hrec].
  eexists. split; [vm_compute; reflexivity|].
  edestruct (Hrec "BTC/USDT:USDT") as (row & t & _); [vm_compute; reflexivity|].
  repeat split.
Defined.

Lemma analyze_open_interest_last_row_witness :
  ∃ rec, analyze_open_interest sample_oi_df !! "ETH/USDT:USDT" = Some rec
         ∧ (oa_open_interest_usd_millions rec == 1500)%Q
         ∧ oa_oi_status rec = "medium".
Proof.
  destruct (analyze_open_interest_last_row sample_oi_df) as [_ Hrec].
  eexists. split; [vm_compute; reflexivity|].
  edestruct (Hrec "ETH/USDT:USDT") as (row & t & _); [vm_compute; reflexivity|].
  repeat split.
Defined.

Lemma analyze_funding_rate_signal_witness :
  ∃ rec, analyze_funding_rate sample_funding_df !! "ETH/USDT:USDT" = Some rec
         ∧ (fa_signal rec = "🟡 空頭偏冷，關注機會"
            ↔ fa_status rec = "hot" ∧ (fa_funding_rate rec <= 0)%Q).
Proof.
  eexists. split; [vm_compute; reflexivity|].
  eapply (analyze_funding_rate_signal sample_funding_df "ETH/USDT:USDT").
  vm_compute. reflexivity.
Defined.

(** ** The combined signal, axis by axis *)

(** X4: an axis that does not cross its mark is ignored, as if its
    record were absent: a funding status other than ['overheated'] (so
    ['hot'] too), an open-interest status other than ['high'], a price
    change of at most 5 in absolute value. *)
Theorem combined_signal_quiet_axes
    (funding_data : option FundingAnalysis) (oi_data : option OIAnalysis)
    (price_data : option PriceInfo) :
  (get_field fa_status "unknown" funding_data ≠ "overheated" →
   _generate_combined_signal funding_data oi_data price_data
   = _generate_combined_signal None oi_data price_data)
  ∧ (get_field oa_oi_status "unknown" oi_data ≠ "high" →
     _generate_combined_signal funding_data oi_data price_data
     = _generate_combined_signal funding_data None price_data)
  ∧ ((Qabs (get_field pi_change_24h_percent 0%Q price_data) <= 5)%Q →
     _generate_combined_signal funding_data oi_data price_data
     = _generate_combined_signal funding_data oi_data None).
Proof.
  split; [|split].
  - destruct funding_data as [fd|]; [|done]. cbn [get_field from_option]. intros Hs.
    unfold _generate_combined_signal. cbn [get_field from_option].
    by destruct (String.eqb_spec (fa_status fd) "overheated").
  - destruct oi_data as [od|]; [|done]. cbn [get_field from_option]. intros Hs.
    unfold _generate_combined_signal. cbn [get_field from_option].
    by destruct (String.eqb_spec (oa_oi_status od) "high").
  - destruct price_data as [pd|]; [|done]. cbn [get_field from_option]. intros Hp.
    unfold _generate_combined_signal. cbn [get_field from_option].
    apply py_gt_false in Hp. by rewrite Hp.
Qed.

Lemma combined_signal_quiet_axes_witness :
  _generate_combined_signal
    (Some {| fa_base_currency := "BTC";
             fa_funding_rate := float 0.0007;
             fa_funding_rate_percent := float 0.07;
             fa_annualized_rate := float 0.7665;
             fa_annualized_rate_percent := float 76.65;
             fa_status := "hot";
             fa_risk_level := 3;
             fa_signal := "🟡 多頭偏熱，注意風險";
             fa_timestamp := 0 |})
    (Some eth_open_interest) None
  = _generate_combined_signal None (Some eth_open_interest) None.
Proof.
  eapply (combined_signal_quiet_axes (Some _) (Some eth_open_interest) None).
  cbn. discriminate.
Defined.

(** ** The aggregator, field by field *)

Lemma foldl_insert_lookup_last {A V} (key : A → string) (val : A → V)
    (rows : list A) (acc : gmap string V) (k : string) (row : A) :
  last_with key k rows row →
  foldl (fun d row => <[key row := val row]> d) acc rows !! k = Some (val row).
Proof.
  intros (before & after & -> & Hkey & Hafter).
  rewrite foldl_app. cbn [foldl].
  set (acc' := foldl _ acc before). clearbody acc'.
  assert (Hstart : <[key row := val row]> acc' !! k = Some (val row))
    by (by rewrite <- Hkey, lookup_insert_eq).
  revert Hstart. generalize (<[key row := val row]> acc'). 
  induction after as [|r after IH]; intros d Hd; cbn [foldl]; [done|].
  apply IH.
  - intros r' Hin. apply Hafter. by right.
  - rewrite lookup_insert_ne; [done|]. apply Hafter. left.
Qed.

(** The record that [combine_analysis] stores under a symbol, with the
    entry of the price dict for the rows of that symbol. *)
Lemma combine_analysis_record now (funding_analysis : gmap string FundingAnalysis)
    (oi_analysis : gmap string OIAnalysis) (price_data : list PriceRow) s r :
  dict_get (combine_analysis now funding_analysis oi_analysis price_data) s = Some r →
  ∃ price_dict : gmap string PriceInfo,
    r = combined_record now funding_analysis oi_analysis price_dict s
    ∧ (is_Some (funding_analysis !! s) ∨ is_Some (oi_analysis !! s))
    ∧ ((∀ row, row ∈ price_data → pr_symbol row ≠ s) → price_dict !! s = None)
    ∧ (∀ row, last_with pr_symbol s price_data row →
         price_dict !! s = Some {| pi_price := pr_price row;
                                   pi_change_24h_percent := pr_change_24h_percent row;
                                   pi_volume_24h := pr_volume_24h row |}).
Proof.
  unfold combine_analysis.
  match goal with
  | |- context [combined_record _ _ _ ?pd] => set (price_dict := pd)
  end.
  rewrite (dict_set_loop_get
             (combined_record now funding_analysis oi_analysis price_dict)).
  cbn [dict_get]. case_decide as Hin; [|done]. intros [= <-].
  exists price_dict. split; [done|]. split; [|split].
  - apply elem_of_elements, elem_of_union in Hin. by rewrite !elem_of_dom in Hin.
  - intros Hrows. unfold price_dict. by rewrite foldl_insert_lookup_None, lookup_empty.
  - intros row Hlast. unfold price_dict.
    by rewrite (foldl_insert_lookup_last pr_symbol _ _ _ _ row Hlast).
Qed.

(** X5: in the record of a symbol, [combine_analysis] copies the fields
    of the funding analysis and of the open-interest analysis that it
    has for the symbol (the base currency is then the one of the funding
    analysis), takes price and price change from the last price row of
    the symbol, and stores the symbol and the analysis time. *)
Theorem combine_analysis_copies (now : datetime)
    (funding_analysis : gmap string FundingAnalysis)
    (oi_analysis : gmap string OIAnalysis) (price_data : list PriceRow)
    (s : string) (r : CombinedRecord) :
  dict_get (combine_analysis now funding_analysis oi_analysis price_data) s = Some r →
  cr_symbol r = s
  ∧ cr_analysis_time r = now
  ∧ (∀ fd, funding_analysis !! s = Some fd →
       cr_base_currency r = fa_base_currency fd
       ∧ cr_funding_rate_percent r = fa_funding_rate_percent fd
       ∧ cr_funding_status r = fa_status fd
       ∧ cr_funding_risk_level r = fa_risk_level fd)
  ∧ (∀ od, oi_analysis !! s = Some od →
       cr_oi_usd_millions r = oa_open_interest_usd_millions od
       ∧ cr_oi_status r = oa_oi_status od)
  ∧ (∀ row, last_with pr_symbol s price_data row →
       cr_price r = pr_price row
       ∧ cr_price_change_24h_percent r = pr_change_24h_percent row).
Proof.
  intros Hr. apply combine_analysis_record in Hr as (price_dict & -> & _ & _ & Hprice).
  split; [done|]. split; [done|]. cbn. split; [|split].
  - by intros fd ->.
  - by intros od ->.
  - intros row Hlast. by rewrite (Hprice row Hlast).
Qed.

Lemma combine_analysis_copies_witness :
  ∃ r, dict_get (combine_analysis 0 {[ "BTC/USDT:USDT" := btc_funding ]} ∅ sample_price_df)
                "BTC/USDT:USDT" = Some r
       ∧ cr_symbol r = "BTC/USDT:USDT"
       ∧ cr_funding_status r = "overheated"
       ∧ cr_price r = 65000%Q.
Proof.
  eexists. split; [vm_compute; reflexivity|].
  edestruct (combine_analysis_copies 0 {[ "BTC/USDT:USDT" := btc_funding ]} ∅
               sample_price_df "BTC/USDT:USDT")
    as (Hsym & _ & Hfunding & _ & Hprice); [vm_compute; reflexivity|].
  split; [exact Hsym|]. split.
  - apply (Hfunding btc_funding). reflexivity.
  - reflexivity.
Defined.



(** ** Alerts of a cycle *)

Lemma concat_cons_prefix sep s (l : list string) :
  ∃ rest, String.concat sep (s :: l) = s +:+ rest.
Proof.
  destruct l as [|s' l]; cbn [String.concat].
  - exists "". by rewrite string_app_empty_r.
  - by eexists.
Qed.

(** An overheated funding record puts its clause first. *)
Lemma generate_combined_signal_overheated fd oi_data price_data :
  fa_status fd = "overheated" →
  ∃ rest,
    _generate_combined_signal (Some fd) oi_data price_data
    = (if py_gt (fa_funding_rate fd) 0
       then "資金費率過熱(多頭擁擠)" else "資金費率過冷(空頭擁擠)") +:+ rest.
Proof.
  intros Hs. unfold _generate_combined_signal. cbn [get_field from_option].
  rewrite Hs. cbn [String.eqb Ascii.eqb Bool.eqb].
  destruct (py_gt (fa_funding_rate fd) 0); cbn [app].
  all: destruct oi_data as [od|]; [destruct (String.eqb _ "high")|]; cbn [app].
  all: destruct price_data as [pd|];
         [destruct (py_gt (Qabs (get_field pi_change_24h_percent 0%Q (Some pd))) 5)|];
         cbn [app].
  all: apply concat_cons_prefix.
Qed.

(** X7: an alert raised on the records of [combine_analysis] belongs to
    a symbol of the funding analysis whose status there is
    ['overheated']; it copies base currency and rate percent from that
    funding record, and its signal starts with the funding clause, so it
    is never the market-normal text. *)
Theorem combined_alert_funding (now : datetime)
    (funding_analysis : gmap string FundingAnalysis)
    (oi_analysis : gmap string OIAnalysis) (price_data : list PriceRow)
    (a : AlertEntry) :
  a ∈ _check_alerts (combine_analysis now funding_analysis oi_analysis price_data) →
  al_status a = "overheated"
  ∧ al_signal a ≠ "市場正常"
  ∧ ∃ fd rest,
      funding_analysis !! al_symbol a = Some fd
      ∧ fa_status fd = "overheated"
      ∧ al_base_currency a = fa_base_currency fd
      ∧ al_funding_rate_percent a = fa_funding_rate_percent fd
      ∧ al_signal a
        = (if py_gt (fa_funding_rate fd) 0
           then "資金費率過熱(多頭擁擠)" else "資金費率過冷(空頭擁擠)") +:+ rest.
Proof.
  rewrite check_alerts_filter. intros ([s r] & -> & [Hover Hin]%list_elem_of_filter)%list_elem_of_fmap.
  unfold has_status in Hover. cbn [snd] in Hover.
  assert (Hget : dict_get (combine_analysis now funding_analysis oi_analysis price_data) s
                 = Some r).
  { apply dict_get_NoDup; [|done].
    destruct (combine_analysis_get now funding_analysis oi_analysis price_data)
      as (_ & _ & -> & _). apply NoDup_elements. }
  pose proof Hget as Hrec.
  apply combine_analysis_record in Hrec as (price_dict & -> & _).
  cbn in Hover |- *.
  destruct (funding_analysis !! s) as [fd|] eqn:Hfd; [|done]. cbn in Hover.
  destruct (generate_combined_signal_overheated fd (oi_analysis !! s) (price_dict !! s) Hover)
    as [rest Hrest].
  split; [done|]. split.
  - rewrite Hrest. by destruct (py_gt (fa_funding_rate fd) 0).
  - exists fd, rest. by repeat split.
Qed.

Lemma combined_alert_funding_witness :
  ∃ a, a ∈ _check_alerts (combine_analysis 0 {[ "BTC/USDT:USDT" := btc_funding ]}
                            {[ "ETH/USDT:USDT" := eth_open_interest ]} sample_price_df)
       ∧ al_symbol a = "BTC/USDT:USDT"
       ∧ al_status a = "overheated"
       ∧ al_signal a ≠ "市場正常".
Proof.
  eexists. split; [vm_compute; left|].
  edestruct (combined_alert_funding 0 {[ "BTC/USDT:USDT" := btc_funding ]}
               {[ "ETH/USDT:USDT" := eth_open_interest ]} sample_price_df)
    as (Hstatus & Hsignal & _); [vm_compute; left|].
  split; [reflexivity|]. split; [exact Hstatus|exact Hsignal].
Defined.




(** ** The order of the report *)

Lemma insert_desc_filter {A} (key : A → Q) (v : Q) x l :
  filter (fun y => key y == v)%Q (insert_desc key x l)
  = filter (fun y => key y == v)%Q (x :: l).
Proof.
  induction l as [|y l IH]; cbn [insert_desc]; [done|].
  destruct (py_gt (key y) (key x)) eqn:Hgt; [|done].
  apply py_gt_true in Hgt.
  rewrite filter_cons, IH, !filter_cons.
  destruct (decide (key y == v)%Q) as [Hy|Hy]; [|done].
  destruct (decide (key x == v)%Q) as [Hx|Hx]; [|done].
  exfalso. rewrite Hy, Hx in Hgt. by apply Qlt_irrefl in Hgt.
Qed.

Lemma insert_desc_head {A} (key : A → Q) x l :
  Forall (fun y => (key y <= key x)%Q) l → insert_desc key x l = x :: l.
Proof.
  destruct l as [|y l]; [done|]. intros [Hy _]%Forall_cons. cbn [insert_desc].
  apply py_gt_false in Hy. by rewrite Hy.
Qed.

(** X9: the sort of the report is stable: the items of any one key keep
    the order they have in the dict, and a list that is already in
    descending order of the key is left as it is. *)
Theorem sorted_reverse_stable {A} (key : A → Q) (xs : list A) :
  (∀ v, filter (fun x => key x == v)%Q (sorted_reverse key xs)
        = filter (fun x => key x == v)%Q xs)
  ∧ (StronglySorted (fun a b => (key b <= key a)%Q) xs → sorted_reverse key xs = xs).
Proof.
  unfold sorted_reverse. split.
  - intros v. induction xs as [|x xs IH]; [done|]. cbn [foldr].
    by rewrite insert_desc_filter, !filter_cons, IH.
  - induction xs as [|x xs IH]; [done|]. intros [Hx Hxs]%StronglySorted_cons.
    cbn [foldr]. rewrite (IH Hxs). by apply insert_desc_head.
Qed.

Lemma sorted_reverse_stable_witness :
  sorted_reverse abs_rate
    [ sample_record "ETH/USDT:USDT" (- float 0.25) "overheated";
      sample_record "BNB/USDT:USDT" (float 0.06) "hot";
      sample_record "ADA/USDT:USDT" (- float 0.06) "hot" ]
  = [ sample_record "ETH/USDT:USDT" (- float 0.25) "overheated";
      sample_record "BNB/USDT:USDT" (float 0.06) "hot";
      sample_record "ADA/USDT:USDT" (- float 0.06) "hot" ].
Proof.
  apply sorted_reverse_stable.
  repeat (apply StronglySorted_cons; split; [repeat constructor; vm_compute; discriminate|]).
  constructor.
Defined.

(** ** Delivery *)

Lemma requests_of_app t1 t2 : requests_of (t1 ++ t2) = requests_of t1 ++ requests_of t2.
Proof. apply omap_app. Qed.

Lemma send_telegram_requests cfg net message trace :
  requests_of (_send_telegram_message cfg net message trace)
  = requests_of trace
    ++ [TelegramPost ("https://api.telegram.org/bot"
                      +:+ TELEGRAM_TOKEN cfg +:+ "/sendMessage")
                     (TELEGRAM_CHAT_ID cfg) message "Markdown" 10].
Proof.
  unfold _send_telegram_message. destruct (net trace _); by rewrite requests_of_app.
Qed.

Lemma send_discord_requests cfg net message trace :
  requests_of (_send_discord_message cfg net message trace)
  = requests_of trace ++ [DiscordPost (DISCORD_WEBHOOK_URL cfg) message 10].
Proof.
  unfold _send_discord_message. destruct (net trace _); by rewrite requests_of_app.
Qed.

(** What a delivery adds to the trace: the requests of the enabled
    channels, whatever their outcomes. *)
Lemma deliver_requests cfg net self message trace :
  requests_of
    (let trace :=
       if telegram_enabled self then _send_telegram_message cfg net message trace
       else trace in
     if discord_enabled self then _send_discord_message cfg net message trace
     else trace)
  = requests_of trace ++ deliveries cfg self message.
Proof.
  unfold deliveries. cbv zeta.
  destruct (telegram_enabled self), (discord_enabled self).
  - by rewrite send_discord_requests, send_telegram_requests, <- app_assoc.
  - by rewrite send_telegram_requests, app_nil_r.
  - by rewrite send_discord_requests.
  - by rewrite app_nil_r.
Qed.

(** X10: [send_alerts] does nothing at all for an empty list of alerts.
    Otherwise it makes one request per enabled channel, Telegram first,
    each with the formatted alert message, whatever the outcome of any
    request: a failed Telegram post does not stop the Discord post.  Its
    last log line reports the alerts as sent, also when every request
    failed. *)
Theorem send_alerts_requests (cfg : Credentials) (net : Network)
    (self : NotifierIO.Notifier) (timestamp : string) (alerts : list AlertEntry)
    (cycle_type : string) (trace : list Event) :
  (alerts = [] → send_alerts cfg net self timestamp alerts cycle_type trace = trace)
  ∧ (alerts ≠ [] →
     requests_of (send_alerts cfg net self timestamp alerts cycle_type trace)
     = requests_of trace
       ++ deliveries cfg self (_format_alert_message timestamp alerts cycle_type)
     ∧ last (send_alerts cfg net self timestamp alerts cycle_type trace)
       = Some (Logged INFO ("已發送 " +:+ pretty (length alerts) +:+ " 個警報通知"))).
Proof.
  split; [by intros ->|]. intros Hne.
  destruct alerts as [|a alerts]; [done|]. unfold send_alerts. split.
  - rewrite requests_of_app, (deliver_requests cfg net self). cbn. by rewrite app_nil_r.
  - by rewrite last_snoc.
Qed.

Lemma send_alerts_requests_witness :
  let self := {| telegram_enabled := true; discord_enabled := true |} in
  let alerts := _check_alerts sample_batch in
  requests_of (send_alerts sample_credentials net_down self "2025-01-01 00:00:00"
                 alerts "5min" [])
  = deliveries sample_credentials self
      (_format_alert_message "2025-01-01 00:00:00" alerts "5min")
  ∧ last (send_alerts sample_credentials net_down self "2025-01-01 00:00:00"
            alerts "5min" [])
    = Some (Logged INFO "已發送 1 個警報通知").
Proof.
  intros self alerts.
  destruct (send_alerts_requests sample_credentials net_down self "2025-01-01 00:00:00"
              alerts "5min" []) as [_ Hsend].
  apply Hsend. discriminate.
Defined.





(** X12: [__init__] enables Telegram exactly when both the token and the
    chat id are set, and Discord exactly when the webhook URL is set; it
    makes no request.  A notifier built without usable credentials logs
    a warning and then never makes a request: [send_alerts] and
    [send_report] only log. *)
Theorem notifier_init_channels (cfg : Credentials) (trace : list Event) :
  let self := (__init__ cfg trace).1 in
  (telegram_enabled self = true ↔ TELEGRAM_TOKEN cfg ≠ "" ∧ TELEGRAM_CHAT_ID cfg ≠ "")
  ∧ (discord_enabled self = true ↔ DISCORD_WEBHOOK_URL cfg ≠ "")
  ∧ requests_of (__init__ cfg trace).2 = requests_of trace
  ∧ (telegram_enabled self = false → discord_enabled self = false →
     last (__init__ cfg trace).2 = Some (Logged WARNING "未配置任何通知方式")
     ∧ ∀ net timestamp alerts analysis cycle_type tr,
         requests_of (send_alerts cfg net self timestamp alerts cycle_type tr)
         = requests_of tr
         ∧ requests_of (send_report cfg net self timestamp analysis cycle_type tr)
           = requests_of tr).
Proof.
  cbv zeta. unfold __init__, truthy. cbn [fst snd telegram_enabled discord_enabled].
  split; [|split; [|split]].
  - rewrite andb_true_iff, !negb_true_iff.
    destruct (String.eqb_spec (TELEGRAM_TOKEN cfg) ""),
      (String.eqb_spec (TELEGRAM_CHAT_ID cfg) ""); intuition congruence.
  - rewrite negb_true_iff.
    destruct (String.eqb_spec (DISCORD_WEBHOOK_URL cfg) ""); intuition congruence.
  - repeat match goal with
      | |- context [if ?b then _ else _] => destruct b
      end; rewrite ?requests_of_app; cbn; by rewrite ?app_nil_r.
  - intros -> ->. cbn. split; [by rewrite last_snoc|].
    intros net timestamp alerts analysis cycle_type tr. split.
    + unfold send_alerts. destruct alerts; [done|].
      cbn. rewrite requests_of_app. cbn. by rewrite app_nil_r.
    + unfold send_report. cbn. rewrite requests_of_app. cbn. by rewrite app_nil_r.
Qed.

Lemma notifier_init_channels_witness :
  let cfg := {| TELEGRAM_TOKEN := "123:abc";
                TELEGRAM_CHAT_ID := "";
                DISCORD_WEBHOOK_URL := "" |} in
  requests_of (send_alerts cfg net_up (__init__ cfg []).1 "2025-01-01 00:00:00"
                 (_check_alerts sample_batch) "5min" [])
  = [].
Proof.
  intros cfg.
  destruct (notifier_init_channels cfg []) as (_ & _ & _ & Hoff).
  destruct Hoff as [_ Hoff]; [reflexivity|reflexivity|].
  apply (Hoff net_up "2025-01-01 00:00:00" (_check_alerts sample_batch) [] "5min" []).
Defined.

